(** * The polyglot bridge (packages/philjs-polyglot/src/bridge.py)

    A shallow embedding of the bridge's two functions, [handle_command] and
    [main], and of the module's top level.  The Python interpreter itself
    (what [exec], [eval], a call of a user object, [json.loads], [json.dumps]
    and [traceback.format_exc] compute) is not code of the repository: it is
    a [runtime] record the development is parametric in.  Everything the
    source writes out is modelled here: the dispatch on [cmd['type']], the
    name lookups in the module's global namespace (the very namespace the
    source hands to [exec] and [eval] through [globals()]), the two
    [try]/[except] blocks with the classes they catch, and the loop over
    [sys.stdin].

    What the model leaves out: the three library modules and the builtins
    module are taken as the standard library ships them (executed code that
    patches [json.loads] in place is outside it; code that rebinds the name
    [json] in the module namespace is inside); lists and dicts are values,
    not shared mutable objects; reading a line and writing one do not fail. *)

From Stdlib Require Import ZArith String Ascii List Bool Lia.
From stdpp Require Import base gmap strings list fin_maps pretty.

Open Scope string_scope.
Open Scope list_scope.
Set Warnings "-register-all".

(** ** Exceptions *)

(** The exception classes the bridge meets, with the standard hierarchy;
    [Derived] is a class declared by executed code. *)
Inductive exc_class : Type :=
| BaseException
| SystemExit
| KeyboardInterrupt
| Exception
| TypeError
| ValueError
| JSONDecodeError
| LookupError
| KeyError
| AttributeError
| NameError
| SyntaxError
| RecursionError
| Derived (name : string) (parent : exc_class).

#[global] Instance exc_class_eq_dec : EqDecision exc_class.
Proof. solve_decision. Defined.

(** The class itself followed by its bases, most specific first. *)
Fixpoint ancestors (c : exc_class) : list exc_class :=
  c :: match c with
       | BaseException => []
       | SystemExit | KeyboardInterrupt | Exception => [BaseException]
       | TypeError | ValueError | LookupError | AttributeError
       | NameError | SyntaxError | RecursionError => [Exception; BaseException]
       | JSONDecodeError => [ValueError; Exception; BaseException]
       | KeyError => [LookupError; Exception; BaseException]
       | Derived _ p => ancestors p
       end.

(** [issubclass c k]. *)
Definition subclass (c k : exc_class) : bool := bool_decide (k ∈ ancestors c).

(** An exception instance: its class and what [str(e)] gives. *)
Record exn : Type := mk_exn { exn_class : exc_class; exn_str : string }.

(** ** Values *)

Inductive module_name : Type := Msys | Mjson | Mtraceback.

(** The two functions [bridge.py] defines. *)
Inductive bridge_fn : Type := Fhandle_command | Fmain.

(** The built-in and library callables the source refers to. *)
Inductive builtin : Type :=
| Bexec | Beval | Bglobals | Bprint | Bstr
| Bjson_loads | Bjson_dumps | Bformat_exc.

(** The attribute names the source reads: [.get], [.loads], [.dumps],
    [.format_exc], [.stdin], [.JSONDecodeError]. *)
Inductive attr : Type :=
| a_get | a_loads | a_dumps | a_format_exc | a_stdin | a_JSONDecodeError.

(** Python values.  The first seven constructors are the values [json.loads]
    builds (a float is kept as its [repr]); a dict of this kind has string
    keys and keeps insertion order.  [PGlobals] is the dict object
    [globals()] returns: a reference to the live module namespace, not a
    copy.  [PObj] is any other object of the interpreter (a user function, a
    set, a tuple, ...), opaque to the bridge. *)
Inductive pyval : Type :=
| PNone
| PBool (b : bool)
| PInt (z : Z)
| PFloat (repr : string)
| PStr (s : string)
| PList (l : list pyval)
| PDict (d : list (string * pyval))
| PModule (m : module_name)
| PBuiltin (b : builtin)
| PFunc (f : bridge_fn)
| PClass (c : exc_class)
| PExn (e : exn)
| PMethod (self : pyval) (a : attr)
| PGlobals
| PStdin
| PObj (o : N).

(** JSON documents, as [json.loads] decodes them. *)
Inductive json : Type :=
| JNull
| JBool (b : bool)
| JInt (z : Z)
| JFloat (repr : string)
| JString (s : string)
| JArray (l : list json)
| JObject (d : list (string * json)).

Fixpoint of_json (j : json) : pyval :=
  match j with
  | JNull => PNone
  | JBool b => PBool b
  | JInt z => PInt z
  | JFloat r => PFloat r
  | JString s => PStr s
  | JArray l => PList (map of_json l)
  | JObject d => PDict (map (fun kv => match kv with (k, v) => (k, of_json v) end) d)
  end.

(** ** Dicts with string keys *)

Fixpoint dict_get {A : Type} (d : list (string * A)) (k : string) : option A :=
  match d with
  | [] => None
  | (k', v) :: d' => if String.eqb k' k then Some v else dict_get d' k
  end.

(** [d[k] = v]: an existing key keeps its position, a new key goes last. *)
Fixpoint dict_set {A : Type} (d : list (string * A)) (k : string) (v : A)
  : list (string * A) :=
  match d with
  | [] => [(k, v)]
  | (k', v') :: d' =>
      if String.eqb k' k then (k', v) :: d' else (k', v') :: dict_set d' k v
  end.

(** ** The world *)

(** What the process does on its two streams, in order. *)
Inductive event : Type :=
| EvRead (line : string)
| EvWrite (text : string) (flushed : bool).

Section World.

(** The interpreter's private state (its object heap). *)
Context {Heap : Type}.

Record world : Type := mk_world {
  globals : gmap string pyval;   (* the module namespace of bridge.py, at
                                    its string keys; keys of another type,
                                    which only executed code can add, are
                                    the interpreter's *)
  stdin : list string;           (* the lines not yet read *)
  io_log : list event;           (* reads and writes so far *)
  heap : Heap
}.

Definition set_globals (g : gmap string pyval) (w : world) : world :=
  mk_world g (stdin w) (io_log w) (heap w).

Definition log_event (e : event) (w : world) : world :=
  mk_world (globals w) (stdin w) (io_log w ++ [e]) (heap w).

Definition pop_line (rest : list string) (w : world) : world :=
  mk_world (globals w) rest (io_log w) (heap w).

(** The lines written to standard output so far. *)
Definition written (w : world) : list string :=
  omap (fun e => match e with EvWrite s _ => Some s | EvRead _ => None end)
       (io_log w).

(** ** Outcomes *)

(** A computation returns, raises, never returns ([Hang], executed code that
    loops forever), or the model's fuel ran out. *)
Inductive outcome (A : Type) : Type :=
| Ret (a : A) (w : world)
| Raise (e : exn) (w : world)
| Hang (w : world)
| OutOfFuel.

#[global] Arguments Ret {A} a w.
#[global] Arguments Raise {A} e w.
#[global] Arguments Hang {A} w.
#[global] Arguments OutOfFuel {A}.

(** Computations thread the world: a state-and-exception monad. *)
Definition M (A : Type) : Type := world -> outcome A.

Definition ret {A : Type} (a : A) : M A := fun w => Ret a w.

Definition raise {A : Type} (e : exn) : M A := fun w => Raise e w.

Definition bind {A B : Type} (m : M A) (k : A -> M B) : M B :=
  fun w =>
    match m w with
    | Ret a w' => k a w'
    | Raise e w' => Raise e w'
    | Hang w' => Hang w'
    | OutOfFuel => OutOfFuel
    end.

(** [try: body except: handler]; the handler decides which classes it takes
    and raises the others again. *)
Definition try_except {A : Type} (body : M A) (handler : exn -> M A) : M A :=
  fun w =>
    match body w with
    | Raise e w' => handler e w'
    | o => o
    end.

End World.

#[global] Arguments world : clear implicits.
#[global] Arguments outcome : clear implicits.
#[global] Arguments M : clear implicits.

Notation "'let*' x ':=' m 'in' k" := (bind m (fun x => k))
  (at level 10, x name, m at level 100, k at level 200,
   format "'[v' 'let*'  x  :=  m  'in'  '/' k ']'").

(** ** The interpreter *)

(** The errors the interpreter itself raises when the bridge applies an
    operation to a value that does not support it. *)
Inductive fault : Type :=
| NotSubscriptable (v : pyval)           (* v['k'] on a non-container *)
| BadIndex (v : pyval)                   (* 'abc'['k'], [1]['k'] *)
| MissingKey (k : string)                (* d['k'], k not in d *)
| NoItemAssignment (v : pyval)           (* v['k'] = x *)
| NoAttribute (v : pyval) (a : attr)     (* v.a *)
| NotCallable (v : pyval)                (* v(...) *)
| BadArguments (v : pyval)               (* wrong arity, keyword or type *)
| Unhashable (v : pyval)                 (* a list or dict used as a key *)
| NotIterable (v : pyval)                (* f( *v ) *)
| UndefinedName (n : string)             (* a name bound nowhere *)
| NotAnException (v : pyval)             (* raise v *)
| NotAClass (v : pyval).                 (* except v *)

Definition fault_class (f : fault) : exc_class :=
  match f with
  | MissingKey _ => KeyError
  | NoAttribute _ _ => AttributeError
  | UndefinedName _ => NameError
  | _ => TypeError
  end.

(** The operations of the object protocol, for objects opaque to the
    bridge; the operands are passed in a list, receiver first. *)
Inductive foreign_op : Type :=
| OpGetItem | OpSetItem | OpGetAttr (a : attr) | OpCall (flush : bool)
| OpEq | OpTruth | OpUnpack | OpIter | OpNext | OpFormat | OpRaise | OpMatch.

(** What [json.loads] does with a string: a document, [JSONDecodeError], or
    another exception of the decoder (deep nesting, for one). *)
Inductive decoded : Type :=
| Document (j : json)
| Malformed (msg : string)
| DecoderFailure (e : exn).

(** Why [json.dumps] refuses a value; it never raises [JSONDecodeError]. *)
Inductive encode_error : Type :=
| NotSerializable     (* TypeError: Object of type ... is not JSON serializable *)
| CircularReference   (* ValueError: Circular reference detected *)
| TooDeep.            (* RecursionError *)

Definition encode_error_class (r : encode_error) : exc_class :=
  match r with
  | NotSerializable => TypeError
  | CircularReference => ValueError
  | TooDeep => RecursionError
  end.

(** The interpreter and the standard library, as far as the bridge uses
    them.  [rt_exec] and [rt_eval] run source text against the module
    namespace held in the world and may change the world at will. *)
Record runtime (Heap : Type) : Type := mk_runtime {
  rt_exec : string -> M Heap unit;
  rt_eval : string -> M Heap pyval;
  rt_foreign : foreign_op -> list pyval -> M Heap pyval;
  rt_json_decode : string -> decoded;
  rt_json_encode : pyval -> world Heap -> string + encode_error;
  rt_format_exc : option exn -> string;
  rt_message : fault -> string;
  rt_encode_message : encode_error -> pyval -> string
}.

#[global] Arguments rt_exec {Heap} _ _ _.
#[global] Arguments rt_eval {Heap} _ _ _.
#[global] Arguments rt_foreign {Heap} _ _ _ _.
#[global] Arguments rt_json_decode {Heap} _ _.
#[global] Arguments rt_json_encode {Heap} _ _ _.
#[global] Arguments rt_format_exc {Heap} _ _.
#[global] Arguments rt_message {Heap} _ _.
#[global] Arguments rt_encode_message {Heap} _ _ _.

(** The names of the [builtins] module the source refers to; a global of
    the same name shadows them. *)
Definition builtin_value (name : string) : option pyval :=
  if String.eqb name "exec" then Some (PBuiltin Bexec)
  else if String.eqb name "eval" then Some (PBuiltin Beval)
  else if String.eqb name "globals" then Some (PBuiltin Bglobals)
  else if String.eqb name "print" then Some (PBuiltin Bprint)
  else if String.eqb name "str" then Some (PBuiltin Bstr)
  else if String.eqb name "ValueError" then Some (PClass ValueError)
  else if String.eqb name "Exception" then Some (PClass Exception)
  else None.

(** The attributes of the three imported modules, among the names the
    source reads. *)
Definition module_attr (m : module_name) (a : attr) : option pyval :=
  match m, a with
  | Msys, a_stdin => Some PStdin
  | Mjson, a_loads => Some (PBuiltin Bjson_loads)
  | Mjson, a_dumps => Some (PBuiltin Bjson_dumps)
  | Mjson, a_JSONDecodeError => Some (PClass JSONDecodeError)
  | Mtraceback, a_format_exc => Some (PBuiltin Bformat_exc)
  | _, _ => None
  end.

(** The values [json.loads] can build. *)
Definition is_data (v : pyval) : bool :=
  match v with
  | PNone | PBool _ | PInt _ | PFloat _ | PStr _ | PList _ | PDict _ => true
  | _ => false
  end.

(** [f"{v}"] for the scalars. *)
Definition scalar_text (v : pyval) : option string :=
  match v with
  | PNone => Some "None"
  | PBool true => Some "True"
  | PBool false => Some "False"
  | PInt z => Some (pretty z)
  | PFloat r => Some r
  | PStr s => Some s
  | _ => None
  end.

(** A string here is the bytes of its UTF-8 text; Python's [str] is a
    sequence of code points.  The two agree exactly on ASCII text. *)
Fixpoint ascii_only (s : string) : bool :=
  match s with
  | EmptyString => true
  | String c s' => (Ascii.nat_of_ascii c <? 128)%nat && ascii_only s'
  end.

(** [list(s)] for an ASCII string: its characters, one byte each. *)
Fixpoint chars (s : string) : list pyval :=
  match s with
  | EmptyString => []
  | String c s' => PStr (String c EmptyString) :: chars s'
  end.

(** ** The object protocol, as the bridge uses it

    Each operation is written out for the values whose behaviour the
    language fixes; for the others it asks the interpreter. *)

Section Bridge.

Context {Heap : Type} (RT : runtime Heap).

#[local] Abbreviation M := (M Heap).

Definition fail {A : Type} (f : fault) : M A :=
  raise (mk_exn (fault_class f) (rt_message RT f)).

Definition foreign (op : foreign_op) (operands : list pyval) : M pyval :=
  rt_foreign RT op operands.

(** A global name in a function body: the module namespace first, then the
    builtins. *)
Definition load_global (name : string) : M pyval :=
  fun w =>
    match globals w !! name with
    | Some v => Ret v w
    | None =>
        match builtin_value name with
        | Some v => Ret v w
        | None => fail (UndefinedName name) w
        end
    end.

(** [v[k]] for a string constant [k]. *)
Definition getitem (v : pyval) (k : string) : M pyval :=
  match v with
  | PDict d =>
      match dict_get d k with
      | Some x => ret x
      | None => fail (MissingKey k)
      end
  | PGlobals =>
      fun w =>
        match globals w !! k with
        | Some x => Ret x w
        | None => fail (MissingKey k) w
        end
  | PStr _ | PList _ => fail (BadIndex v)
  | PObj _ => foreign OpGetItem [v; PStr k]
  | _ => fail (NotSubscriptable v)
  end.

(** [v[k] = x]; gives the container after the store. *)
Definition setitem (v : pyval) (k : string) (x : pyval) : M pyval :=
  match v with
  | PDict d => ret (PDict (dict_set d k x))
  | PGlobals => fun w => Ret PGlobals (set_globals (<[k := x]> (globals w)) w)
  | PObj _ => foreign OpSetItem [v; PStr k; x]
  | _ => fail (NoItemAssignment v)
  end.

(** [v == s] for a string constant [s]. *)
Definition eq_str (v : pyval) (s : string) : M pyval :=
  match v with
  | PStr t => ret (PBool (String.eqb t s))
  | PObj _ => foreign OpEq [v; PStr s]
  | _ => ret (PBool false)
  end.

(** The truth value of [v], as [if v] and [not v] take it. *)
Definition truthy (v : pyval) : M bool :=
  match v with
  | PNone => ret false
  | PBool b => ret b
  | PInt z => ret (negb (z =? 0)%Z)
  | PFloat r => ret (negb (String.eqb r "0.0" || String.eqb r "-0.0"))
  | PStr s => ret (negb (String.eqb s ""))
  | PList l => ret (match l with [] => false | _ => true end)
  | PDict d => ret (match d with [] => false | _ => true end)
  | PGlobals => fun w => Ret (negb (Nat.eqb (size (globals w)) 0)) w
  | PObj _ =>
      let* r := foreign OpTruth [v] in
      match r with
      | PBool b => ret b
      | _ => fail (BadArguments r)
      end
  | _ => ret true
  end.

(** [v.a]. *)
Definition getattr (v : pyval) (a : attr) : M pyval :=
  match v with
  | PModule m =>
      match module_attr m a with
      | Some x => ret x
      | None => fail (NoAttribute v a)
      end
  | PDict _ | PGlobals =>
      match a with
      | a_get => ret (PMethod v a_get)
      | _ => fail (NoAttribute v a)
      end
  | PFunc _ | PClass _ | PExn _ | PObj _ => foreign (OpGetAttr a) [v]
  | _ => fail (NoAttribute v a)
  end.

(** [d.get(k)] on a dict whose keys are all strings, as every [PDict] is
    (the dicts [json.loads] builds and the responses of the bridge): a key
    of another hashable type is not in it, a list or a dict cannot be a key
    at all. *)
Definition dict_get_method (lookup : string -> option pyval) (self k : pyval)
  : M pyval :=
  match k with
  | PStr s => ret (default PNone (lookup s))
  | PNone | PBool _ | PInt _ | PFloat _ => ret PNone
  | PList _ | PDict _ => fail (Unhashable k)
  | _ => foreign (OpCall false) [PMethod self a_get; k]
  end.

(** [globals().get(k)].  The module namespace is a real dict: the code a
    command executes can give it keys that are not strings
    ([globals()[5] = len]).  [globals] holds its string keys; what a key of
    another hashable type finds is the interpreter's to say. *)
Definition globals_get_method (k : pyval) : M pyval :=
  match k with
  | PStr s => fun w => ret (default PNone (globals w !! s)) w
  | PList _ | PDict _ => fail (Unhashable k)
  | _ => foreign (OpCall false) [PMethod PGlobals a_get; k]
  end.

Definition newline : string := String "010" "".

(** [print(s)] and [print(s, flush=True)]: the text and a line break go to
    standard output; the write itself is taken to succeed. *)
Definition print_line (s : string) (flush : bool) : M pyval :=
  fun w => Ret PNone (log_event (EvWrite (s +:+ newline) flush) w).

Definition json_loads (s : string) : M pyval :=
  match rt_json_decode RT s with
  | Document j => ret (of_json j)
  | Malformed msg => raise (mk_exn JSONDecodeError msg)
  | DecoderFailure e => raise e
  end.

Definition json_dumps (v : pyval) : M pyval :=
  fun w =>
    match rt_json_encode RT v w with
    | inl s => Ret (PStr s) w
    | inr r => Raise (mk_exn (encode_error_class r) (rt_encode_message RT r v)) w
    end.

(** [f( *args )] when [flush] is false and [f( *args, flush=True)] when it is
    true.  [hc] and [mn] are the bridge's own two functions, [cur] the
    exception being handled at the call ([sys.exc_info()]). *)
Definition call_value (hc : pyval -> M pyval) (mn : M pyval)
    (cur : option exn) (f : pyval) (args : list pyval) (flush : bool)
  : M pyval :=
  let other := foreign (OpCall flush) (f :: args) in
  match f with
  | PBuiltin b =>
      if flush then
        match b, args with
        | Bprint, [PStr s] => print_line s true
        | Bprint, _ => other
        | _, _ => fail (BadArguments f)
        end
      else
        match b, args with
        | Bexec, [PStr code; PGlobals] => let* _ := rt_exec RT code in ret PNone
        | Beval, [PStr code; PGlobals] => rt_eval RT code
        | Bexec, [c; PGlobals] | Beval, [c; PGlobals] =>
            if is_data c then fail (BadArguments c) else other
        | Bglobals, [] => ret PGlobals
        | Bprint, [PStr s] => print_line s false
        | Bstr, [PExn e] => ret (PStr (exn_str e))
        | Bstr, [v] =>
            match scalar_text v with
            | Some s => ret (PStr s)
            | None => other
            end
        | Bjson_loads, [PStr s] => json_loads s
        | Bjson_loads, [v] => if is_data v then fail (BadArguments v) else other
        | Bjson_dumps, [v] => json_dumps v
        | Bformat_exc, [] => ret (PStr (rt_format_exc RT cur))
        | _, _ => other
        end
  | PFunc Fhandle_command =>
      match args, flush with
      | [cmd], false => hc cmd
      | _, _ => fail (BadArguments f)
      end
  | PFunc Fmain =>
      match args, flush with
      | [], false => mn
      | _, _ => fail (BadArguments f)
      end
  | PClass ValueError =>
      match args, flush with
      | [PStr s], false => ret (PExn (mk_exn ValueError s))
      | _, _ => other
      end
  | PMethod (PDict d) a_get =>
      match args, flush with
      | [k], false => dict_get_method (dict_get d) (PDict d) k
      | _, _ => other
      end
  | PMethod PGlobals a_get =>
      match args, flush with
      | [k], false => globals_get_method k
      | _, _ => other
      end
  | PClass _ | PExn _ | PMethod _ _ | PObj _ => other
  | _ => fail (NotCallable f)
  end.

(** The positional arguments [*v] unpacks to.  A string unpacks to its
    code points: for ASCII text these are its bytes, for other text the
    interpreter splits it. *)
Definition unpack (v : pyval) : M (list pyval) :=
  let ask :=
    let* r := foreign OpUnpack [v] in
    match r with
    | PList l => ret l
    | _ => fail (NotIterable v)
    end in
  match v with
  | PList l => ret l
  | PStr s => if ascii_only s then ret (chars s) else ask
  | PDict d => ret (map (fun kv => PStr (fst kv)) d)
  | PNone | PBool _ | PInt _ | PFloat _ => fail (NotIterable v)
  | _ => ask
  end.

(** [f"{v}"]. *)
Definition format_value (v : pyval) : M string :=
  match scalar_text v with
  | Some s => ret s
  | None =>
      let* r := foreign OpFormat [v] in
      match r with
      | PStr s => ret s
      | _ => fail (BadArguments r)
      end
  end.

(** [raise v]. *)
Definition raise_value {A : Type} (v : pyval) : M A :=
  match v with
  | PExn e => raise e
  | PClass _ | PObj _ =>
      let* _ := foreign OpRaise [v] in fail (NotAnException v)
  | _ => fail (NotAnException v)
  end.

(** Does [except cls] take the exception [e]? *)
Definition exc_matches (e : exn) (cls : pyval) : M bool :=
  match cls with
  | PClass k => ret (subclass (exn_class e) k)
  | PObj _ =>
      let* r := foreign OpMatch [PExn e; cls] in
      match r with
      | PBool b => ret b
      | _ => fail (NotAClass cls)
      end
  | _ => fail (NotAClass cls)
  end.

(** [iter(v)] and one step of the [for] loop over it: [None] when the
    iterator is exhausted.  Reading standard input takes one line off it. *)
Definition get_iter (v : pyval) : M pyval :=
  match v with
  | PStdin => ret PStdin
  | _ => foreign OpIter [v]
  end.

Definition next_item (it : pyval) : M (option pyval) :=
  match it with
  | PStdin =>
      fun w =>
        match stdin w with
        | [] => Ret None w
        | line :: rest =>
            Ret (Some (PStr line)) (log_event (EvRead line) (pop_line rest w))
        end
  | _ =>
      let* r := foreign OpNext [it] in
      match r with
      | PList [x] => ret (Some x)
      | _ => ret None
      end
  end.

(** ** bridge.py *)

Section Functions.

(** How the body calls a value; the knot with the bridge's own functions
    is tied below. *)
Variable call : option exn -> pyval -> list pyval -> bool -> M pyval.

Definition ok_response : pyval := PDict [("status", PStr "ok")].

Definition ok_result (result : pyval) : pyval :=
  PDict [("status", PStr "ok"); ("result", result)].

Definition unknown_command : pyval :=
  PDict [("status", PStr "error"); ("error", PStr "Unknown command")].

Definition error_response (message trace : pyval) : pyval :=
  PDict [("status", PStr "error"); ("error", message); ("traceback", trace)].

Definition invalid_json : pyval :=
  PDict [("status", PStr "error"); ("error", PStr "Invalid JSON")].

(** [cmd['type'] == kind], as the condition of an [if]. *)
Definition type_is (cmd : pyval) (kind : string) : M bool :=
  let* t := getitem cmd "type" in
  let* c := eq_str t kind in
  truthy c.

(** The [try] block of [handle_command] (lines 7-20). *)
Definition dispatch (cmd : pyval) : M pyval :=
  let* is_exec := type_is cmd "exec" in
  if is_exec then
    (* exec(cmd['code'], globals()) *)
    let* f := load_global "exec" in
    let* code := getitem cmd "code" in
    let* g := load_global "globals" in
    let* ns := call None g [] false in
    let* _ := call None f [code; ns] false in
    ret ok_response
  else
  let* is_eval := type_is cmd "eval" in
  if is_eval then
    (* result = eval(cmd['code'], globals()) *)
    let* f := load_global "eval" in
    let* code := getitem cmd "code" in
    let* g := load_global "globals" in
    let* ns := call None g [] false in
    let* result := call None f [code; ns] false in
    ret (ok_result result)
  else
  let* is_call := type_is cmd "call" in
  if is_call then
    (* func = globals().get(cmd['fn']) *)
    let* g := load_global "globals" in
    let* ns := call None g [] false in
    let* get := getattr ns a_get in
    let* fn := getitem cmd "fn" in
    let* func := call None get [fn] false in
    let* found := truthy func in
    if negb found then
      (* raise ValueError(f"Function {cmd['fn']} not found") *)
      let* cls := load_global "ValueError" in
      let* fn := getitem cmd "fn" in
      let* name := format_value fn in
      let* e := call None cls [PStr ("Function " +:+ name +:+ " not found")] false in
      raise_value e
    else
      (* result = func( *cmd['args'] ) *)
      let* packed := getitem cmd "args" in
      let* args := unpack packed in
      let* result := call None func args false in
      ret (ok_result result)
  else
    ret unknown_command.

(** The [except Exception as e] clause of [handle_command] (lines 21-22). *)
Definition on_exception (e : exn) : M pyval :=
  let* cls := load_global "Exception" in
  let* caught := exc_matches e cls in
  if caught then
    let* str := load_global "str" in
    let* message := call (Some e) str [PExn e] false in
    let* tb := load_global "traceback" in
    let* format_exc := getattr tb a_format_exc in
    let* trace := call (Some e) format_exc [] false in
    ret (error_response message trace)
  else
    raise e.

Definition handle_command_body (cmd : pyval) : M pyval :=
  try_except (dispatch cmd) on_exception.

(** [print(json.dumps(v), flush=True)]. *)
Definition print_json (v : pyval) : M pyval :=
  let* print := load_global "print" in
  let* js := load_global "json" in
  let* dumps := getattr js a_dumps in
  let* text := call None dumps [v] false in
  call None print [text] true.

(** The [try] block of [main]'s loop (lines 28-31). *)
Definition respond (line : pyval) : M pyval :=
  (* cmd = json.loads(line) *)
  let* js := load_global "json" in
  let* loads := getattr js a_loads in
  let* cmd := call None loads [line] false in
  (* response = handle_command(cmd) *)
  let* hc := load_global "handle_command" in
  let* response := call None hc [cmd] false in
  (* response['id'] = cmd.get('id') *)
  let* get := getattr cmd a_get in
  let* id := call None get [PStr "id"] false in
  let* response := setitem response "id" id in
  print_json response.

(** The [except json.JSONDecodeError] clause (lines 32-33). *)
Definition on_decode_error (e : exn) : M pyval :=
  let* js := load_global "json" in
  let* cls := getattr js a_JSONDecodeError in
  let* caught := exc_matches e cls in
  if caught then print_json invalid_json else raise e.

(** One pass through the body of the [for] loop, after the [if not line]
    test. *)
Definition main_iteration (line : pyval) : M pyval :=
  try_except (respond line) on_decode_error.

End Functions.

(** The two functions call each other through [call_value] ([main] calls
    [handle_command]; a [call] command can name either), and executed code
    can hand [main] more input than it started with: the recursion is on
    fuel, one unit for each entry into a bridge function and each pass of
    the loop. *)
Fixpoint handle_command (fuel : nat) (cmd : pyval) : M pyval :=
  match fuel with
  | O => fun _ => OutOfFuel
  | S n => handle_command_body (call_value (handle_command n) (main n)) cmd
  end

with main (fuel : nat) : M pyval :=
  match fuel with
  | O => fun _ => OutOfFuel
  | S n =>
      (* for line in sys.stdin: *)
      let* sys := load_global "sys" in
      let* f := getattr sys a_stdin in
      let* it := get_iter f in
      main_loop n it
  end

with main_loop (fuel : nat) (it : pyval) : M pyval :=
  match fuel with
  | O => fun _ => OutOfFuel
  | S n =>
      let* item := next_item it in
      match item with
      | None => ret PNone
      | Some line =>
          (* if not line: break *)
          let* nonempty := truthy line in
          if negb nonempty then ret PNone
          else
            let* _ := main_iteration (call_value (handle_command n) (main n)) line in
            main_loop n it
      end
  end.

Definition call := fun fuel => call_value (handle_command fuel) (main fuel).

(** The module's top level: the three imports, the two definitions, then
    [if __name__ == "__main__": main()].  [base] is the namespace the
    interpreter creates for the module. *)
Definition module_namespace (base : gmap string pyval) : gmap string pyval :=
  <["main" := PFunc Fmain]>
    (<["handle_command" := PFunc Fhandle_command]>
       (<["traceback" := PModule Mtraceback]>
          (<["json" := PModule Mjson]>
             (<["sys" := PModule Msys]> base)))).

Definition bridge_process (fuel : nat) : M pyval :=
  let* name := load_global "__name__" in
  let* c := eq_str name "__main__" in
  let* is_main := truthy c in
  if is_main then
    let* f := load_global "main" in
    call fuel None f [] false
  else ret PNone.

(** ** Vocabulary of the properties *)

(** A state is intact when the names [bridge.py] refers to are bound as
    the source binds them: the three modules and [handle_command] in the
    module namespace, the builtins not shadowed there. *)
Record intact (w : world Heap) : Prop := mk_intact {
  in_json : globals w !! "json" = Some (PModule Mjson);
  in_traceback : globals w !! "traceback" = Some (PModule Mtraceback);
  in_handle_command : globals w !! "handle_command" = Some (PFunc Fhandle_command);
  in_exec : globals w !! "exec" = None;
  in_eval : globals w !! "eval" = None;
  in_globals : globals w !! "globals" = None;
  in_print : globals w !! "print" = None;
  in_str : globals w !! "str" = None;
  in_ValueError : globals w !! "ValueError" = None;
  in_Exception : globals w !! "Exception" = None
}.

(** The [id] the response gets: [cmd.get('id')]. *)
Definition id_of (d : list (string * json)) : pyval :=
  default PNone (of_json <$> dict_get d "id").

(** A line as the loop hands it to [json.loads]. *)
Definition decodes (line : string) (j : json) : Prop :=
  rt_json_decode RT line = Document j.

(** The text and the trace of the error response for a caught [e]. *)
Definition caught_response (e : exn) : pyval :=
  error_response (PStr (exn_str e)) (PStr (rt_format_exc RT (Some e))).

Definition not_found (name : string) : exn :=
  mk_exn ValueError ("Function " +:+ name +:+ " not found").

(** The test [cmd['type'] == kind] on a decoded object. *)
Definition type_eqb (t : json) (kind : string) : bool :=
  match t with
  | JString s => String.eqb s kind
  | _ => false
  end.

(** [o] ran out of fuel, or it is [o']: what more fuel can change. *)
Definition within {A : Type} (o o' : outcome Heap A) : Prop :=
  o = OutOfFuel \/ o = o'.

Definition is_object (j : json) : bool :=
  match j with
  | JObject _ => true
  | _ => false
  end.

(** A field of a response. *)
Definition field (v : pyval) (k : string) : option pyval :=
  match v with
  | PDict d => dict_get d k
  | _ => None
  end.

(** What the loop does with a finished response (line 31 and the handler
    around it). *)
Definition send (fuel : nat) (response : pyval) : M pyval :=
  try_except (print_json (call fuel) response) (on_decode_error (call fuel)).

(** [json.dumps] refuses a dict that holds a value it refuses. *)
Definition encoder_strict : Prop :=
  forall (fields : list (string * pyval)) (k : string) (v : pyval)
         (w : world Heap) (r : encode_error),
    dict_get fields k = Some v ->
    rt_json_encode RT v w = inr r ->
    exists r', rt_json_encode RT (PDict fields) w = inr r'.

(** A line the loop answers with [text]: [json.loads] rejects it with
    [JSONDecodeError], or it decodes to an object whose handling returns a
    response the encoder accepts, in an intact state and with the two
    streams as the handling found them. *)
Inductive answered (line : string) (w : world Heap)
  : string -> world Heap -> Prop :=
| answered_malformed (msg text : string) :
    rt_json_decode RT line = Malformed msg ->
    rt_json_encode RT invalid_json w = inl text ->
    answered line w text w
| answered_command (fuel : nat) (d : list (string * json))
    (fields : list (string * pyval)) (text : string) (w' : world Heap) :
    decodes line (JObject d) ->
    handle_command fuel (of_json (JObject d)) w = Ret (PDict fields) w' ->
    intact w' -> stdin w' = stdin w -> io_log w' = io_log w ->
    rt_json_encode RT (PDict (dict_set fields "id" (id_of d))) w' = inl text ->
    answered line w text w'.

(** A run of the loop in which every line is answered, with the lines and
    the texts of their responses. *)
Inductive session : world Heap -> list (string * string) -> world Heap -> Prop :=
| session_end (w : world Heap) :
    stdin w = [] -> session w [] w
| session_line (w w' wend : world Heap) (line text : string)
    (rest : list string) (tail : list (string * string)) :
    stdin w = line :: rest -> line <> "" ->
    answered line (log_event (EvRead line) (pop_line rest w)) text w' ->
    session (log_event (EvWrite (text +:+ newline) true) w') tail wend ->
    session w ((line, text) :: tail) wend.

(** The events of such a run: each line is read, then its response is
    written and flushed. *)
Definition exchange (pairs : list (string * string)) : list event :=
  flat_map (fun p => [EvRead (fst p); EvWrite (snd p +:+ newline) true]) pairs.

Definition is_text (j : json) : bool :=
  match j with
  | JString _ => true
  | _ => false
  end.

(** The response to an error the interpreter itself finds in a command. *)
Definition fault_response (f : fault) : pyval :=
  caught_response (mk_exn (fault_class f) (rt_message RT f)).

(** The part of a command the interpreter carries out, with its outcome:
    the source text of an [exec] (whose value is [None]) or of an [eval], or
    the call of the value [fn] names on the elements of [args]. *)
Inductive carried_out (fuel : nat) (d : list (string * json)) (w : world Heap)
  : outcome Heap pyval -> Prop :=
| carried_exec (code : string) (o : outcome Heap pyval) :
    dict_get d "type" = Some (JString "exec") ->
    dict_get d "code" = Some (JString code) ->
    bind (rt_exec RT code) (fun _ => ret PNone) w = o ->
    carried_out fuel d w o
| carried_eval (code : string) (o : outcome Heap pyval) :
    dict_get d "type" = Some (JString "eval") ->
    dict_get d "code" = Some (JString code) ->
    rt_eval RT code w = o ->
    carried_out fuel d w o
| carried_call (name : string) (func : pyval) (args : list json)
    (o : outcome Heap pyval) :
    dict_get d "type" = Some (JString "call") ->
    dict_get d "fn" = Some (JString name) ->
    dict_get d "args" = Some (JArray args) ->
    globals w !! name = Some func ->
    truthy func w = Ret true w ->
    call fuel None func (map of_json args) false w = o ->
    carried_out fuel d w o.

End Bridge.

#[global] Arguments intact {Heap} w.
#[global] Arguments mk_intact {Heap} w.

(** * A runtime to compute with

    The properties below hold for every [runtime].  To run the bridge on
    concrete input lines one runtime is written out here: a JSON codec for
    integers, strings, arrays and objects, and the handful of Python
    programs the examples send.  It stands for the interpreter on those
    inputs only. *)

Module Script.

Definition dquote : ascii := "034".
Definition backslash : ascii := "\".
Definition lf : ascii := "010".

(** ** json.dumps, default separators *)

Fixpoint escape (s : string) : string :=
  match s with
  | EmptyString => ""
  | String c s' =>
      (if Ascii.eqb c dquote then String backslash (String dquote "")
       else if Ascii.eqb c backslash then String backslash (String backslash "")
       else if Ascii.eqb c lf then String backslash "n"
       else String c "") +:+ escape s'
  end.

Definition quoted (s : string) : string :=
  String dquote (escape s +:+ String dquote "").

Fixpoint join (sep : string) (l : list string) : string :=
  match l with
  | [] => ""
  | [x] => x
  | x :: l' => x +:+ sep +:+ join sep l'
  end.

Fixpoint text (v : pyval) : option string :=
  match v with
  | PNone => Some "null"
  | PBool true => Some "true"
  | PBool false => Some "false"
  | PInt z => Some (pretty z)
  | PFloat r => Some r
  | PStr s => Some (quoted s)
  | PList l =>
      let fix items (l : list pyval) : option (list string) :=
        match l with
        | [] => Some []
        | x :: l' =>
            match text x, items l' with
            | Some a, Some b => Some (a :: b)
            | _, _ => None
            end
        end in
      match items l with
      | Some ts => Some ("[" +:+ join ", " ts +:+ "]")
      | None => None
      end
  | PDict d =>
      let fix members (d : list (string * pyval)) : option (list string) :=
        match d with
        | [] => Some []
        | (k, x) :: d' =>
            match text x, members d' with
            | Some a, Some b => Some ((quoted k +:+ ": " +:+ a) :: b)
            | _, _ => None
            end
        end in
      match members d with
      | Some ts => Some ("{" +:+ join ", " ts +:+ "}")
      | None => None
      end
  | _ => None
  end.

(** ** json.loads *)

Definition is_ws (c : ascii) : bool :=
  Ascii.eqb c " " || Ascii.eqb c lf || Ascii.eqb c "009" || Ascii.eqb c "013".

Fixpoint skip_ws (s : string) : string :=
  match s with
  | String c s' => if is_ws c then skip_ws s' else s
  | EmptyString => s
  end.

Definition digit (c : ascii) : option Z :=
  let n := nat_of_ascii c in
  if (48 <=? n)%nat && (n <=? 57)%nat then Some (Z.of_nat (n - 48)) else None.

Fixpoint digits (acc : Z) (s : string) : Z * string :=
  match s with
  | String c s' =>
      match digit c with
      | Some d => digits (10 * acc + d)%Z s'
      | None => (acc, s)
      end
  | EmptyString => (acc, s)
  end.

Definition number (s : string) : option (Z * string) :=
  match s with
  | String c s' =>
      match digit c with
      | Some 0%Z => Some (0%Z, s')
      | Some d => Some (digits d s')
      | None => None
      end
  | EmptyString => None
  end.

Definition unescape (c : ascii) : option ascii :=
  if Ascii.eqb c dquote then Some dquote
  else if Ascii.eqb c backslash then Some backslash
  else if Ascii.eqb c "/" then Some "/"%char
  else if Ascii.eqb c "n" then Some lf
  else if Ascii.eqb c "t" then Some "009"%char
  else if Ascii.eqb c "r" then Some "013"%char
  else None.

(** The rest of a string literal, after its opening quote. *)
Fixpoint string_body (s : string) : option (string * string) :=
  match s with
  | EmptyString => None
  | String c s' =>
      if Ascii.eqb c dquote then Some ("", s')
      else if Ascii.eqb c backslash then
        match s' with
        | String e s'' =>
            match unescape e, string_body s'' with
            | Some ch, Some (t, r) => Some (String ch t, r)
            | _, _ => None
            end
        | EmptyString => None
        end
      else if (nat_of_ascii c <? 32)%nat then None
      else
        match string_body s' with
        | Some (t, r) => Some (String c t, r)
        | None => None
        end
  end.

Fixpoint strip (p s : string) : option string :=
  match p, s with
  | EmptyString, _ => Some s
  | String a p', String b s' => if Ascii.eqb a b then strip p' s' else None
  | _, _ => None
  end.

Fixpoint value (fuel : nat) (s : string) : option (json * string) :=
  match fuel with
  | O => None
  | S n =>
      match skip_ws s with
      | EmptyString => None
      | String c r =>
          if Ascii.eqb c dquote then
            match string_body r with
            | Some (t, r') => Some (JString t, r')
            | None => None
            end
          else if Ascii.eqb c "[" then
            match skip_ws r with
            | String "]" r' => Some (JArray [], r')
            | _ =>
                match items n r with
                | Some (l, r') => Some (JArray l, r')
                | None => None
                end
            end
          else if Ascii.eqb c "{" then
            match skip_ws r with
            | String "}" r' => Some (JObject [], r')
            | _ =>
                match members n r with
                | Some (m, r') =>
                    Some (JObject (fold_left (fun acc kv => dict_set acc (fst kv) (snd kv)) m []), r')
                | None => None
                end
            end
          else if Ascii.eqb c "-" then
            match number r with
            | Some (z, r') => Some (JInt (- z), r')
            | None => None
            end
          else
            match strip "null" (String c r), strip "true" (String c r),
                  strip "false" (String c r) with
            | Some r', _, _ => Some (JNull, r')
            | _, Some r', _ => Some (JBool true, r')
            | _, _, Some r' => Some (JBool false, r')
            | _, _, _ =>
                match number (String c r) with
                | Some (z, r') => Some (JInt z, r')
                | None => None
                end
            end
      end
  end

with items (fuel : nat) (s : string) : option (list json * string) :=
  match fuel with
  | O => None
  | S n =>
      match value n s with
      | Some (j, r) =>
          match skip_ws r with
          | String "," r' =>
              match items n r' with
              | Some (l, r'') => Some (j :: l, r'')
              | None => None
              end
          | String "]" r' => Some ([j], r')
          | _ => None
          end
      | None => None
      end
  end

with members (fuel : nat) (s : string) : option (list (string * json) * string) :=
  match fuel with
  | O => None
  | S n =>
      match skip_ws s with
      | String c r =>
          if Ascii.eqb c dquote then
            match string_body r with
            | Some (k, r1) =>
                match skip_ws r1 with
                | String ":" r2 =>
                    match value n r2 with
                    | Some (j, r3) =>
                        match skip_ws r3 with
                        | String "," r4 =>
                            match members n r4 with
                            | Some (m, r5) => Some ((k, j) :: m, r5)
                            | None => None
                            end
                        | String "}" r4 => Some ([(k, j)], r4)
                        | _ => None
                        end
                    | None => None
                    end
                | _ => None
                end
            | None => None
            end
          else None
      | EmptyString => None
      end
  end.

Definition decode (s : string) : decoded :=
  match value (S (String.length s)) s with
  | Some (j, r) =>
      match skip_ws r with
      | EmptyString => Document j
      | _ => Malformed "Extra data"
      end
  | None => Malformed "Expecting value"
  end.

(** ** The interpreter on the example programs *)

Definition syntax_error : exn := mk_exn SyntaxError "invalid syntax".

Definition exec (code : string) : M unit unit :=
  fun w =>
    match code with
    | "def f(x): return x+1" =>
        Ret tt (set_globals (<["f" := PObj 1]> (globals w)) w)
    | "json = None" =>
        Ret tt (set_globals (<["json" := PNone]> (globals w)) w)
    | "eval = 5" =>
        Ret tt (set_globals (<["eval" := PInt 5]> (globals w)) w)
    | "n = 7" =>
        Ret tt (set_globals (<["n" := PInt 7]> (globals w)) w)
    | "raise SystemExit" => Raise (mk_exn SystemExit "") w
    | "while True: pass" => Hang w
    | _ => Raise syntax_error w
    end.

Definition eval (code : string) : M unit pyval :=
  fun w =>
    match code with
    | "1+1" => Ret (PInt 2) w
    | "set()" => Ret (PObj 2) w
    | _ =>
        match globals w !! code with
        | Some v => Ret v w
        | None => Raise syntax_error w
        end
    end.

(** Object 1 is the function [f] above, object 2 a set.  No program of the
    table gives the namespace a key that is not a string, so
    [globals().get] finds nothing under a number, a boolean or [None]. *)
Definition object_op (op : foreign_op) (operands : list pyval) : M unit pyval :=
  fun w =>
    match op, operands with
    | OpCall false, [PObj 1; PInt x] => Ret (PInt (x + 1)) w
    | OpCall false, [PMethod PGlobals a_get; (PNone | PBool _ | PInt _ | PFloat _)] =>
        Ret PNone w
    | OpTruth, [PObj 1] => Ret (PBool true) w
    | OpTruth, [PObj 2] => Ret (PBool false) w
    | _, _ => Raise (mk_exn TypeError "unsupported operand") w
    end.

Definition encode (v : pyval) (w : world unit) : string + encode_error :=
  match text v with
  | Some s => inl s
  | None => inr NotSerializable
  end.

Definition format_exc (cur : option exn) : string :=
  match cur with
  | Some e => "Traceback (most recent call last): " +:+ exn_str e
  | None => "NoneType: None"
  end.

(** [type(v).__name__] and the texts of the interpreter's own errors. *)
Definition type_name (v : pyval) : string :=
  match v with
  | PNone => "NoneType"
  | PBool _ => "bool"
  | PInt _ => "int"
  | PFloat _ => "float"
  | PStr _ => "str"
  | PList _ => "list"
  | PDict _ | PGlobals => "dict"
  | PModule _ => "module"
  | PBuiltin _ | PMethod _ _ => "builtin_function_or_method"
  | PFunc _ => "function"
  | PClass _ => "type"
  | PExn _ => "Exception"
  | PStdin => "_io.TextIOWrapper"
  | PObj 2 => "set"
  | PObj _ => "function"
  end.

Definition attr_name (a : attr) : string :=
  match a with
  | a_get => "get"
  | a_loads => "loads"
  | a_dumps => "dumps"
  | a_format_exc => "format_exc"
  | a_stdin => "stdin"
  | a_JSONDecodeError => "JSONDecodeError"
  end.

Definition message (f : fault) : string :=
  match f with
  | NotSubscriptable v => "'" +:+ type_name v +:+ "' object is not subscriptable"
  | BadIndex v => type_name v +:+ " indices must be integers"
  | MissingKey k => "'" +:+ k +:+ "'"
  | NoItemAssignment v =>
      "'" +:+ type_name v +:+ "' object does not support item assignment"
  | NoAttribute v a =>
      "'" +:+ type_name v +:+ "' object has no attribute '" +:+ attr_name a +:+ "'"
  | NotCallable v => "'" +:+ type_name v +:+ "' object is not callable"
  | BadArguments v => "bad arguments for '" +:+ type_name v +:+ "'"
  | Unhashable v => "unhashable type: '" +:+ type_name v +:+ "'"
  | NotIterable v =>
      "argument after * must be an iterable, not " +:+ type_name v
  | UndefinedName n => "name '" +:+ n +:+ "' is not defined"
  | NotAnException _ => "exceptions must derive from BaseException"
  | NotAClass _ =>
      "catching classes that do not inherit from BaseException is not allowed"
  end.

(** CPython's decoder gives up on input nested too deep, with
    [RecursionError]; [limited limit] is the runtime whose decoder does so on
    a line with more than [limit] opening brackets. *)
Fixpoint brackets (s : string) : nat :=
  match s with
  | EmptyString => 0
  | String c s' =>
      (if Ascii.eqb c "[" || Ascii.eqb c "{" then 1 else 0) + brackets s'
  end.

Definition too_deep : exn :=
  mk_exn RecursionError "maximum recursion depth exceeded".

Definition limited_decode (limit : nat) (s : string) : decoded :=
  if (limit <? brackets s)%nat then DecoderFailure too_deep else decode s.

Definition limited (limit : nat) : runtime unit :=
  mk_runtime unit exec eval object_op (limited_decode limit) encode format_exc
    message (fun _ _ => "Object of type set is not JSON serializable").




Definition runtime : runtime unit :=
  mk_runtime unit exec eval object_op decode encode format_exc message
    (fun _ _ => "Object of type set is not JSON serializable").

(** The namespace the interpreter gives a script before its first
    statement runs, and the process at its start with [lines] waiting on
    standard input. *)
Definition script_namespace : gmap string pyval :=
  <["__name__" := PStr "__main__"]> (<["__doc__" := PNone]> ∅).

Definition start (lines : list string) : world unit :=
  mk_world (module_namespace script_namespace) lines [] tt.

(** The text of a value the codec accepts, and an input or output line
    carrying it. *)
Definition text_of (v : pyval) : string := default "" (text v).

Definition line_of (j : json) : string := text_of (of_json j) +:+ newline.

Definition command (members : list (string * json)) : string :=
  line_of (JObject members).

(** The world once [name] is bound to [v]. *)
Definition bound (name : string) (v : pyval) (w : world unit) : world unit :=
  set_globals (<[name := v]> (globals w)) w.

(** The world once the next line, [line], is read; once [response] is
    written; once [line] is read and answered with [response]. *)
Definition read (line : string) (w : world unit) : world unit :=
  log_event (EvRead line) (pop_line (tail (stdin w)) w).

Definition write (response : pyval) (w : world unit) : world unit :=
  log_event (EvWrite (text_of response +:+ newline) true) w.

Definition answer (line : string) (response : pyval) (w : world unit)
  : world unit :=
  write response (read line w).

End Script.

(** * Properties *)

Section Properties.

Context {Heap : Type} (RT : runtime Heap).

#[local] Abbreviation world := (world Heap).

Lemma bind_Ret {A B : Type} (m : M Heap A) (k : A -> M Heap B) (w w' : world) (a : A) :
  m w = Ret a w' -> bind m k w = k a w'.
Proof. intros H. unfold bind. now rewrite H. Qed.

Lemma bind_Raise {A B : Type} (m : M Heap A) (k : A -> M Heap B) (w w' : world) (e : exn) :
  m w = Raise e w' -> bind m k w = Raise e w'.
Proof. intros H. unfold bind. now rewrite H. Qed.

Lemma handle_command_S (n : nat) (cmd : pyval) :
  handle_command RT (S n) cmd = handle_command_body RT (call RT n) cmd.
Proof. reflexivity. Qed.

Lemma load_global_bound (name : string) (v : pyval) (w : world) :
  globals w !! name = Some v -> load_global RT name w = Ret v w.
Proof. intros H. unfold load_global. now rewrite H. Qed.

Lemma load_global_builtin (name : string) (v : pyval) (w : world) :
  globals w !! name = None -> builtin_value name = Some v ->
  load_global RT name w = Ret v w.
Proof. intros H Hb. unfold load_global. now rewrite H, Hb. Qed.

Lemma of_json_object (d : list (string * json)) :
  of_json (JObject d)
  = PDict (map (fun kv => match kv with (k, v) => (k, of_json v) end) d).
Proof. reflexivity. Qed.

Lemma dict_get_of_json (d : list (string * json)) (k : string) :
  dict_get (map (fun kv => match kv with (k, v) => (k, of_json v) end) d) k
  = of_json <$> dict_get d k.
Proof.
  induction d as [|[k' v] d IH]; simpl; [reflexivity|].
  destruct (String.eqb k' k); [reflexivity | exact IH].
Qed.

Lemma getitem_object (d : list (string * json)) (k : string) (x : json) (w : world) :
  dict_get d k = Some x ->
  getitem RT (of_json (JObject d)) k w = Ret (of_json x) w.
Proof.
  intros H. rewrite of_json_object. unfold getitem.
  rewrite dict_get_of_json, H. reflexivity.
Qed.

Lemma type_is_object (d : list (string * json)) (t : json) (kind : string) (w : world) :
  dict_get d "type" = Some t ->
  type_is RT (of_json (JObject d)) kind w = Ret (type_eqb t kind) w.
Proof.
  intros H. unfold type_is, bind. rewrite (getitem_object _ _ _ _ H).
  destruct t; reflexivity.
Qed.

Lemma unknown_type_dispatch (call : option exn -> pyval -> list pyval -> bool -> M Heap pyval)
    (d : list (string * json)) (t : json) (w : world) :
  dict_get d "type" = Some t ->
  type_eqb t "exec" = false -> type_eqb t "eval" = false -> type_eqb t "call" = false ->
  handle_command_body RT call (of_json (JObject d)) w = Ret unknown_command w.
Proof.
  intros H He Hv Hc. unfold handle_command_body, try_except, dispatch, bind.
  rewrite (type_is_object _ _ _ _ H), He; cbv beta iota.
  rewrite (type_is_object _ _ _ _ H), Hv; cbv beta iota.
  rewrite (type_is_object _ _ _ _ H), Hc; cbv beta iota.
  reflexivity.
Qed.


(** One step of a computation whose first action returns. *)
Ltac ground_test t :=
  let v := eval vm_compute in t in
  match v with
  | true => change t with true
  | false => change t with false
  end.
Ltac tests :=
  repeat match goal with
         | |- context [type_eqb ?a ?b] => ground_test (type_eqb a b)
         | |- context [String.eqb ?a ?b] => ground_test (String.eqb a b)
         | |- context [negb ?a] => ground_test (negb a)
         end;
  cbv beta iota.
Ltac bind_with tac :=
  erewrite bind_Ret; [ | solve [tac] ]; cbv beta iota; tests.
Ltac by_lookup :=
  first [ reflexivity
        | apply load_global_bound; eassumption
        | apply load_global_builtin; [ eassumption | reflexivity ]
        | eapply getitem_object; eassumption
        | eapply type_is_object; eassumption ].
Ltac bind_step := bind_with by_lookup.

Lemma call_handle_command (n : nat) (cur : option exn) (cmd : pyval) :
  call RT n cur (PFunc Fhandle_command) [cmd] false = handle_command RT n cmd.
Proof. reflexivity. Qed.

(** *** The four branches of the dispatch, in an intact state *)

Lemma dispatch_exec (n : nat) (d : list (string * json)) (code : string) (w : world) :
  intact w ->
  dict_get d "type" = Some (JString "exec") ->
  dict_get d "code" = Some (JString code) ->
  dispatch RT (call RT n) (of_json (JObject d)) w
  = bind (rt_exec RT code) (fun _ => ret ok_response) w.
Proof.
  intros [] Ht Hc. unfold dispatch.
  repeat bind_step.
  unfold call, call_value, bind; simpl.
  destruct (rt_exec RT code w); reflexivity.
Qed.

Lemma dispatch_eval (n : nat) (d : list (string * json)) (code : string) (w : world) :
  intact w ->
  dict_get d "type" = Some (JString "eval") ->
  dict_get d "code" = Some (JString code) ->
  dispatch RT (call RT n) (of_json (JObject d)) w
  = bind (rt_eval RT code) (fun result => ret (ok_result result)) w.
Proof.
  intros [] Ht Hc. unfold dispatch.
  repeat bind_step. reflexivity.
Qed.

Lemma lookup_fn (n : nat) (name : string) (w : world) :
  call RT n None (PMethod PGlobals a_get) [PStr name] false w
  = Ret (default PNone (globals w !! name)) w.
Proof. reflexivity. Qed.

Lemma dispatch_call_missing (n : nat) (d : list (string * json)) (name : string) (w : world) :
  intact w ->
  dict_get d "type" = Some (JString "call") ->
  dict_get d "fn" = Some (JString name) ->
  globals w !! name = None ->
  dispatch RT (call RT n) (of_json (JObject d)) w = Raise (not_found name) w.
Proof.
  intros [] Ht Hf Hn. unfold dispatch.
  do 7 bind_step.
  bind_with ltac:(simpl of_json; rewrite lookup_fn, Hn; reflexivity).
  repeat bind_step. reflexivity.
Qed.

Lemma dispatch_call_bound (n : nat) (d : list (string * json)) (name : string)
    (func : pyval) (args : list json) (w : world) :
  intact w ->
  dict_get d "type" = Some (JString "call") ->
  dict_get d "fn" = Some (JString name) ->
  dict_get d "args" = Some (JArray args) ->
  globals w !! name = Some func ->
  truthy RT func w = Ret true w ->
  dispatch RT (call RT n) (of_json (JObject d)) w
  = bind (call RT n None func (map of_json args) false)
         (fun result => ret (ok_result result)) w.
Proof.
  intros [] Ht Hf Ha Hn Htrue. unfold dispatch.
  do 7 bind_step.
  bind_with ltac:(simpl of_json; rewrite lookup_fn, Hn; reflexivity).
  bind_with ltac:(exact Htrue).
  repeat bind_step. reflexivity.
Qed.

(** *** The [except Exception] clause *)

Lemma on_exception_intact (n : nat) (e : exn) (w : world) :
  intact w ->
  on_exception RT (call RT n) e w
  = if subclass (exn_class e) Exception then Ret (caught_response RT e) w
    else Raise e w.
Proof.
  intros []. unfold on_exception.
  do 2 bind_step. destruct (subclass _ _); [|reflexivity].
  repeat bind_step. reflexivity.
Qed.

Lemma handle_command_dispatch (n : nat) (cmd : pyval) (w : world) :
  handle_command RT (S n) cmd w
  = match dispatch RT (call RT n) cmd w with
    | Raise e w' => on_exception RT (call RT n) e w'
    | o => o
    end.
Proof. reflexivity. Qed.

(** *** The loop body *)

Lemma print_json_written (n : nat) (v : pyval) (text : string) (w : world) :
  intact w ->
  rt_json_encode RT v w = inl text ->
  print_json RT (call RT n) v w
  = Ret PNone (log_event (EvWrite (text +:+ newline) true) w).
Proof.
  intros [] He. unfold print_json.
  do 3 bind_step.
  bind_with ltac:(unfold call, call_value, json_dumps; rewrite He; reflexivity).
  reflexivity.
Qed.

Lemma print_json_refused (n : nat) (v : pyval) (r : encode_error) (w : world) :
  intact w ->
  rt_json_encode RT v w = inr r ->
  print_json RT (call RT n) v w
  = Raise (mk_exn (encode_error_class r) (rt_encode_message RT r v)) w.
Proof.
  intros [] He. unfold print_json.
  do 3 bind_step.
  apply bind_Raise. unfold call, call_value, json_dumps. now rewrite He.
Qed.

Lemma on_decode_error_intact (n : nat) (e : exn) (w : world) :
  intact w ->
  on_decode_error RT (call RT n) e w
  = if subclass (exn_class e) JSONDecodeError
    then print_json RT (call RT n) invalid_json w
    else Raise e w.
Proof.
  intros []. unfold on_decode_error.
  do 3 bind_step. destruct (subclass _ _); reflexivity.
Qed.

Lemma json_loads_document (n : nat) (line : string) (j : json) (w : world) :
  decodes RT line j ->
  call RT n None (PBuiltin Bjson_loads) [PStr line] false w = Ret (of_json j) w.
Proof.
  intros H. unfold call, call_value, json_loads. now rewrite H.
Qed.

Lemma get_id_object (n : nat) (d : list (string * json)) (w : world) :
  call RT n None (PMethod (of_json (JObject d)) a_get) [PStr "id"] false w
  = Ret (id_of d) w.
Proof.
  rewrite of_json_object. unfold call, call_value, dict_get_method.
  now rewrite dict_get_of_json.
Qed.

(** The [try] block on a line that decodes to an object: the command is
    handled, then the response gets the [id] and is printed. *)
Lemma respond_object (n : nat) (line : string) (d : list (string * json)) (w : world) :
  intact w ->
  decodes RT line (JObject d) ->
  respond RT (call RT n) (PStr line) w
  = bind (handle_command RT n (of_json (JObject d)))
      (fun response =>
         bind (setitem RT response "id" (id_of d))
              (print_json RT (call RT n))) w.
Proof.
  intros [] Hd. unfold respond.
  do 2 bind_step.
  bind_with ltac:(eapply json_loads_document; eassumption).
  bind_step.
  rewrite call_handle_command.
  destruct (handle_command RT n (of_json (JObject d)) w) as [r w'| | |] eqn:E;
    try (unfold bind; rewrite E; reflexivity).
  rewrite !(bind_Ret _ _ _ _ _ E).
  bind_step.
  bind_with ltac:(apply get_id_object).
  reflexivity.
Qed.

(** One pass of the loop over standard input. *)
Lemma main_loop_line (n : nat) (line : string) (rest : list string) (w : world) :
  stdin w = line :: rest -> line <> "" ->
  main_loop RT (S n) PStdin w
  = bind (main_iteration RT (call RT n) (PStr line))
         (fun _ => main_loop RT n PStdin)
         (log_event (EvRead line) (pop_line rest w)).
Proof.
  intros Hs Hl. cbn [main_loop].
  bind_with ltac:(unfold next_item; rewrite Hs; reflexivity).
  destruct line as [|c line]; [congruence|].
  bind_step. reflexivity.
Qed.

Lemma main_loop_end (n : nat) (w : world) :
  stdin w = [] -> main_loop RT (S n) PStdin w = Ret PNone w.
Proof.
  intros Hs. cbn [main_loop].
  bind_with ltac:(unfold next_item; rewrite Hs; reflexivity).
  reflexivity.
Qed.

(** *** Fuel

    More fuel changes no outcome but [OutOfFuel]. *)

Lemma within_refl {A : Type} (o : outcome Heap A) : within o o.
Proof. now right. Qed.

Lemma within_trans {A : Type} (o1 o2 o3 : outcome Heap A) :
  within o1 o2 -> within o2 o3 -> within o1 o3.
Proof. intros [->| ->] H; [now left | exact H]. Qed.

Lemma bind_within {A B : Type} (m1 m2 : M Heap A) (k1 k2 : A -> M Heap B) (w : world) :
  within (m1 w) (m2 w) ->
  (forall a w', within (k1 a w') (k2 a w')) ->
  within (bind m1 k1 w) (bind m2 k2 w).
Proof.
  intros [H|H] Hk; unfold bind; rewrite H; [now left|].
  destruct (m2 w); auto using within_refl.
Qed.

Lemma try_except_within {A : Type} (b1 b2 : M Heap A) (h1 h2 : exn -> M Heap A)
    (w : world) :
  within (b1 w) (b2 w) ->
  (forall e w', within (h1 e w') (h2 e w')) ->
  within (try_except b1 h1 w) (try_except b2 h2 w).
Proof.
  intros [H|H] Hh; unfold try_except; rewrite H; [now left|].
  destruct (b2 w); auto using within_refl.
Qed.

Section Fuel.

Variables (hc hc' : pyval -> M Heap pyval) (mn mn' : M Heap pyval).
Hypothesis hc_within : forall cmd w, within (hc cmd w) (hc' cmd w).
Hypothesis mn_within : forall w, within (mn w) (mn' w).

Lemma call_value_within (cur : option exn) (f : pyval) (args : list pyval)
    (flush : bool) (w : world) :
  within (call_value RT hc mn cur f args flush w)
         (call_value RT hc' mn' cur f args flush w).
Proof.
  destruct f as [| | | | | | | | |[]| | | | | |]; try apply within_refl;
    simpl; destruct args as [|a [|b args]], flush;
    auto using within_refl.
Qed.

Ltac within_run :=
  repeat first
    [ apply within_refl
    | apply call_value_within
    | apply bind_within; [ | intros ]
    | match goal with
      | |- within ((if ?b then _ else _) _) _ => destruct b
      end ].

Lemma dispatch_within (cmd : pyval) (w : world) :
  within (dispatch RT (call_value RT hc mn) cmd w)
         (dispatch RT (call_value RT hc' mn') cmd w).
Proof. unfold dispatch. within_run. Qed.

Lemma on_exception_within (e : exn) (w : world) :
  within (on_exception RT (call_value RT hc mn) e w)
         (on_exception RT (call_value RT hc' mn') e w).
Proof. unfold on_exception. within_run. Qed.

Lemma handle_command_body_within (cmd : pyval) (w : world) :
  within (handle_command_body RT (call_value RT hc mn) cmd w)
         (handle_command_body RT (call_value RT hc' mn') cmd w).
Proof.
  apply try_except_within; auto using dispatch_within, on_exception_within.
Qed.

Lemma print_json_within (v : pyval) (w : world) :
  within (print_json RT (call_value RT hc mn) v w)
         (print_json RT (call_value RT hc' mn') v w).
Proof. unfold print_json. within_run. Qed.

Lemma main_iteration_within (line : pyval) (w : world) :
  within (main_iteration RT (call_value RT hc mn) line w)
         (main_iteration RT (call_value RT hc' mn') line w).
Proof.
  apply try_except_within.
  - unfold respond. within_run.
  - intros e w'. unfold on_decode_error. within_run.
Qed.

End Fuel.

Lemma fuel_step (n : nat) :
  (forall cmd w, within (handle_command RT n cmd w) (handle_command RT (S n) cmd w))
  /\ (forall w, within (main RT n w) (main RT (S n) w))
  /\ (forall it w, within (main_loop RT n it w) (main_loop RT (S n) it w)).
Proof.
  induction n as [|n (IHh & IHm & IHl)]; [repeat split; intros; now left|].
  repeat split.
  - intros cmd w. apply handle_command_body_within; assumption.
  - intros w. change (main RT (S n)) with
      (bind (load_global RT "sys") (fun sys =>
         bind (getattr RT sys a_stdin) (fun f =>
           bind (get_iter RT f) (fun it => main_loop RT n it)))).
    change (main RT (S (S n))) with
      (bind (load_global RT "sys") (fun sys =>
         bind (getattr RT sys a_stdin) (fun f =>
           bind (get_iter RT f) (fun it => main_loop RT (S n) it)))).
    repeat (apply bind_within; [apply within_refl | intros]). apply IHl.
  - intros it w. cbn [main_loop].
    apply bind_within; [apply within_refl | intros [line|] w1];
      [|apply within_refl].
    apply bind_within; [apply within_refl | intros b w2].
    destruct (negb b); [apply within_refl|].
    apply bind_within; [|intros; apply IHl].
    apply main_iteration_within; assumption.
Qed.

Lemma fuel_le (n m : nat) :
  n <= m ->
  (forall cmd w, within (handle_command RT n cmd w) (handle_command RT m cmd w))
  /\ (forall it w, within (main_loop RT n it w) (main_loop RT m it w)).
Proof.
  induction 1 as [|m Hle [IHh IHl]]; [split; intros; apply within_refl|].
  destruct (fuel_step m) as (Hh & _ & Hl).
  split; intros; eapply within_trans; eauto.
Qed.

(** A response obtained with some fuel is obtained with any more. *)
Lemma handle_command_more_fuel (n m : nat) (cmd r : pyval) (w w' : world) :
  n <= m ->
  handle_command RT n cmd w = Ret r w' -> handle_command RT m cmd w = Ret r w'.
Proof.
  intros Hle H. destruct (proj1 (fuel_le n m Hle) cmd w) as [E|E]; congruence.
Qed.

Lemma intact_same_globals (w w' : world) :
  globals w' = globals w -> intact w -> intact w'.
Proof. intros H []. split; rewrite H; assumption. Qed.

Lemma intact_read (line : string) (rest : list string) (w : world) :
  intact w -> intact (log_event (EvRead line) (pop_line rest w)).
Proof. apply intact_same_globals. reflexivity. Qed.

Lemma intact_written (text : string) (w : world) :
  intact w -> intact (log_event (EvWrite text true) w).
Proof. apply intact_same_globals. reflexivity. Qed.

(** *** Sending a response *)

Lemma send_written (n : nat) (v : pyval) (text : string) (w : world) :
  intact w ->
  rt_json_encode RT v w = inl text ->
  send RT n v w = Ret PNone (log_event (EvWrite (text +:+ newline) true) w).
Proof.
  intros Hi He. unfold send, try_except.
  now rewrite (print_json_written _ _ _ _ Hi He).
Qed.

Lemma encode_error_not_decode (r : encode_error) :
  subclass (encode_error_class r) JSONDecodeError = false.
Proof. destruct r; reflexivity. Qed.

Lemma send_refused (n : nat) (v : pyval) (r : encode_error) (w : world) :
  intact w ->
  rt_json_encode RT v w = inr r ->
  send RT n v w
  = Raise (mk_exn (encode_error_class r) (rt_encode_message RT r v)) w.
Proof.
  intros Hi He. unfold send, try_except.
  rewrite (print_json_refused _ _ _ _ Hi He), (on_decode_error_intact _ _ _ Hi).
  simpl exn_class. now rewrite encode_error_not_decode.
Qed.

(** The loop body on a command whose handling returns: the response gets
    the command's [id] and is sent. *)
Lemma iteration_response (n : nat) (line : string) (d : list (string * json))
    (fields : list (string * pyval)) (w w' : world) :
  intact w ->
  decodes RT line (JObject d) ->
  handle_command RT n (of_json (JObject d)) w = Ret (PDict fields) w' ->
  main_iteration RT (call RT n) (PStr line) w
  = send RT n (PDict (dict_set fields "id" (id_of d))) w'.
Proof.
  intros Hi Hd Hh. unfold main_iteration, send, try_except.
  rewrite (respond_object _ _ _ _ Hi Hd), (bind_Ret _ _ _ _ _ Hh).
  reflexivity.
Qed.

(** The loop body on a line the decoder rejects with [JSONDecodeError]. *)
Lemma iteration_malformed (n : nat) (line msg : string) (w : world) :
  intact w ->
  rt_json_decode RT line = Malformed msg ->
  main_iteration RT (call RT n) (PStr line) w
  = print_json RT (call RT n) invalid_json w.
Proof.
  intros Hi Hd. unfold main_iteration, try_except.
  assert (respond RT (call RT n) (PStr line) w
          = Raise (mk_exn JSONDecodeError msg) w) as ->.
  { destruct Hi. unfold respond. do 2 bind_step. apply bind_Raise.
    unfold call, call_value, json_loads. now rewrite Hd. }
  now rewrite (on_decode_error_intact _ _ _ Hi).
Qed.

(** *** The same steps, under the names each one resolves

    An executed command can rebind any name of the module.  The lemmas
    below ask, of the state they start in, only for the bindings of the
    names the step looks up. *)







(** *** What [handle_command] can return *)

Lemma bind_Ret_inv {A B : Type} (m : M Heap A) (k : A -> M Heap B)
    (w w' : world) (b : B) :
  bind m k w = Ret b w' -> exists a w1, m w = Ret a w1 /\ k a w1 = Ret b w'.
Proof.
  unfold bind. destruct (m w) as [a w1| | |]; try discriminate. eauto.
Qed.

Lemma raise_value_not_Ret {A : Type} (v : pyval) (w w' : world) (a : A) :
  raise_value RT v w <> Ret a w'.
Proof.
  destruct v; try discriminate;
    unfold raise_value, bind, foreign; destruct (rt_foreign _ _ _ _); discriminate.
Qed.

Ltac invert_run :=
  repeat match goal with
         | H : bind _ _ _ = Ret _ _ |- _ =>
             apply bind_Ret_inv in H; destruct H as (? & ? & ? & H)
         | H : (if ?b then _ else _) _ = Ret _ _ |- _ => destruct b
         | H : raise_value _ _ _ = Ret _ _ |- _ =>
             exfalso; exact (raise_value_not_Ret _ _ _ _ H)
         | H : ret _ _ = Ret _ _ |- _ => inversion H; subst; clear H
         | H : raise _ _ = Ret _ _ |- _ => discriminate H
         end.

(** Whatever the state, a response is one of the four dicts the source
    builds. *)
Lemma handle_command_response (n : nat) (cmd r : pyval) (w w' : world) :
  handle_command RT (S n) cmd w = Ret r w' ->
  r = ok_response \/ (exists v, r = ok_result v) \/ r = unknown_command
  \/ (exists m t, r = error_response m t).
Proof.
  rewrite handle_command_dispatch.
  destruct (dispatch RT (call RT n) cmd w) as [r0 w0|e w0|w0|] eqn:E;
    try discriminate.
  - intros H; inversion H; subst; clear H.
    unfold dispatch in E. invert_run; eauto 6.
  - intros H. unfold on_exception in H. invert_run; eauto 6.
Qed.

Lemma handle_command_dict (n : nat) (cmd r : pyval) (w w' : world) :
  handle_command RT (S n) cmd w = Ret r w' -> exists fields, r = PDict fields.
Proof.
  intros H. apply handle_command_response in H.
  destruct H as [->|[[v ->]|[->|(m & t & ->)]]]; eexists; reflexivity.
Qed.

(** * The claims *)

Lemma type_eqb_false (t : json) (kind : string) :
  t <> JString kind -> type_eqb t kind = false.
Proof.
  intros H. destruct t; try reflexivity. simpl.
  destruct (String.eqb_spec s kind); [subst; congruence | reflexivity].
Qed.

(** C6.  A command whose [type] is none of [exec], [eval], [call], handled
    in an intact state: [handle_command] returns the fixed unknown-command
    response and leaves the world as it was, whatever the command's other
    fields are; the response has no [traceback]; the loop adds the command's
    [id] and writes it. *)
Theorem unknown_command_answer (n : nat) (line text : string)
    (d : list (string * json)) (t : json) (w : world) :
  intact w ->
  decodes RT line (JObject d) ->
  dict_get d "type" = Some t ->
  t <> JString "exec" -> t <> JString "eval" -> t <> JString "call" ->
  rt_json_encode RT
    (PDict [("status", PStr "error"); ("error", PStr "Unknown command");
            ("id", id_of d)]) w = inl text ->
  handle_command RT (S n) (of_json (JObject d)) w = Ret unknown_command w
  /\ (forall d' : list (string * json),
        dict_get d' "type" = Some t ->
        handle_command RT (S n) (of_json (JObject d')) w = Ret unknown_command w)
  /\ field unknown_command "status" = Some (PStr "error")
  /\ field unknown_command "error" = Some (PStr "Unknown command")
  /\ field unknown_command "traceback" = None
  /\ main_iteration RT (call RT (S n)) (PStr line) w
     = send RT (S n)
         (PDict [("status", PStr "error"); ("error", PStr "Unknown command");
                 ("id", id_of d)]) w
  /\ main_iteration RT (call RT (S n)) (PStr line) w
     = Ret PNone (log_event (EvWrite (text +:+ newline) true) w).
Proof.
  intros Hi Hd Ht He Hv Hc Henc.
  assert (forall d', dict_get d' "type" = Some t ->
            handle_command RT (S n) (of_json (JObject d')) w
            = Ret unknown_command w) as Hall.
  { intros d' Ht'. rewrite handle_command_S.
    apply (unknown_type_dispatch _ _ t); auto using type_eqb_false. }
  repeat split; auto.
  - exact (iteration_response _ _ _ _ _ _ Hi Hd (Hall d Ht)).
  - rewrite (iteration_response _ _ _ _ _ _ Hi Hd (Hall d Ht)).
    now apply send_written.
Qed.

Lemma dict_get_set {A : Type} (d : list (string * A)) (k : string) (v : A) :
  dict_get (dict_set d k v) k = Some v.
Proof.
  induction d as [|[k' v'] d IH]; simpl.
  - now rewrite String.eqb_refl.
  - destruct (String.eqb k' k) eqn:E; simpl; rewrite E; [reflexivity | exact IH].
Qed.

(** C4.  A line that decodes to an object, in an intact state, whose
    handling returns: what the loop sends is the returned dict with its [id]
    set to the command's [id], the decoded value itself whatever it is, and
    [None] when the command has none; when the encoder accepts that dict its
    text is the line written. *)
Theorem response_id (n : nat) (line : string) (d : list (string * json))
    (r : pyval) (w w' : world) :
  intact w ->
  decodes RT line (JObject d) ->
  handle_command RT (S n) (of_json (JObject d)) w = Ret r w' ->
  exists fields : list (string * pyval),
    r = PDict fields
    /\ main_iteration RT (call RT (S n)) (PStr line) w
       = send RT (S n) (PDict (dict_set fields "id" (id_of d))) w'
    /\ field (PDict (dict_set fields "id" (id_of d))) "id" = Some (id_of d)
    /\ (forall x : json, dict_get d "id" = Some x -> id_of d = of_json x)
    /\ (dict_get d "id" = None -> id_of d = PNone)
    /\ (forall text : string,
          intact w' ->
          rt_json_encode RT (PDict (dict_set fields "id" (id_of d))) w' = inl text ->
          main_iteration RT (call RT (S n)) (PStr line) w
          = Ret PNone (log_event (EvWrite (text +:+ newline) true) w')).
Proof.
  intros Hi Hd Hh.
  destruct (handle_command_dict _ _ _ _ _ Hh) as [fields ->].
  exists fields.
  pose proof (iteration_response _ _ _ _ _ _ Hi Hd Hh) as Hit.
  repeat split.
  - exact Hit.
  - apply dict_get_set.
  - intros x Hx. unfold id_of. now rewrite Hx.
  - intros Hx. unfold id_of. now rewrite Hx.
  - intros text Hi' He. rewrite Hit. now apply send_written.
Qed.


(** C8.  In an intact state: an [exec] whose code runs to its end is
    answered by a response without [result]; an [eval] whose expression
    yields [v] and a [call] whose function returns [v] are answered by a
    response whose [result] is [v]; the [eval] of [1+1] sent with [id] 4,
    when the interpreter computes 2, is answered by status ok, result 2,
    id 4. *)
Theorem result_field (n : nat) (d : list (string * json)) (w : world) :
  intact w ->
  (forall (code : string) (w' : world),
      dict_get d "type" = Some (JString "exec") ->
      dict_get d "code" = Some (JString code) ->
      rt_exec RT code w = Ret tt w' ->
      handle_command RT (S n) (of_json (JObject d)) w = Ret ok_response w'
      /\ field ok_response "status" = Some (PStr "ok")
      /\ field ok_response "result" = None)
  /\ (forall (code : string) (v : pyval) (w' : world),
        dict_get d "type" = Some (JString "eval") ->
        dict_get d "code" = Some (JString code) ->
        rt_eval RT code w = Ret v w' ->
        handle_command RT (S n) (of_json (JObject d)) w = Ret (ok_result v) w'
        /\ field (ok_result v) "status" = Some (PStr "ok")
        /\ field (ok_result v) "result" = Some v)
  /\ (forall (name : string) (func v : pyval) (args : list json) (w' : world),
        dict_get d "type" = Some (JString "call") ->
        dict_get d "fn" = Some (JString name) ->
        dict_get d "args" = Some (JArray args) ->
        globals w !! name = Some func ->
        truthy RT func w = Ret true w ->
        call RT n None func (map of_json args) false w = Ret v w' ->
        handle_command RT (S n) (of_json (JObject d)) w = Ret (ok_result v) w'
        /\ field (ok_result v) "status" = Some (PStr "ok")
        /\ field (ok_result v) "result" = Some v)
  /\ (forall (line : string) (w' : world),
        decodes RT line
          (JObject [("id", JInt 4); ("type", JString "eval");
                    ("code", JString "1+1")]) ->
        rt_eval RT "1+1" w = Ret (PInt 2) w' ->
        main_iteration RT (call RT (S n)) (PStr line) w
        = send RT (S n)
            (PDict [("status", PStr "ok"); ("result", PInt 2); ("id", PInt 4)])
            w').
Proof.
  intros Hi. repeat split.
  - rewrite handle_command_dispatch, (dispatch_exec _ _ _ _ Hi H H0).
    unfold bind. now rewrite H1.
  - rewrite handle_command_dispatch, (dispatch_eval _ _ _ _ Hi H H0).
    unfold bind. now rewrite H1.
  - rewrite handle_command_dispatch,
      (dispatch_call_bound _ _ _ _ _ _ Hi H H0 H1 H2 H3).
    unfold bind. now rewrite H4.
  - intros line w' Hd He.
    apply (iteration_response _ _ _ [("status", PStr "ok"); ("result", PInt 2)]
             _ _ Hi Hd).
    rewrite handle_command_dispatch, (dispatch_eval _ _ "1+1" _ Hi); try reflexivity.
    unfold bind. now rewrite He.
Qed.

(** C7, as the code has it.  A [call] in an intact state.  When [fn] is
    not in the namespace the response is an error whose message is
    [Function <fn> not found], with the trace of that [ValueError], and the
    loop sends it with the command's [id].  When [fn] is bound to a value
    that tests true, that value is called with the elements of [args] as its
    positional arguments, and when the call returns [v] the response is
    status ok with result [v]. *)
Theorem call_dispatch (n : nat) (line name : string) (d : list (string * json))
    (w : world) :
  intact w ->
  decodes RT line (JObject d) ->
  dict_get d "type" = Some (JString "call") ->
  dict_get d "fn" = Some (JString name) ->
  (globals w !! name = None ->
   handle_command RT (S n) (of_json (JObject d)) w
   = Ret (caught_response RT (not_found name)) w
   /\ field (caught_response RT (not_found name)) "status" = Some (PStr "error")
   /\ field (caught_response RT (not_found name)) "error"
      = Some (PStr ("Function " +:+ name +:+ " not found"))
   /\ main_iteration RT (call RT (S n)) (PStr line) w
      = send RT (S n)
          (PDict [("status", PStr "error");
                  ("error", PStr ("Function " +:+ name +:+ " not found"));
                  ("traceback", PStr (rt_format_exc RT (Some (not_found name))));
                  ("id", id_of d)]) w)
  /\ (forall (func v : pyval) (args : list json) (w' : world),
        globals w !! name = Some func ->
        truthy RT func w = Ret true w ->
        dict_get d "args" = Some (JArray args) ->
        call RT n None func (map of_json args) false w = Ret v w' ->
        handle_command RT (S n) (of_json (JObject d)) w = Ret (ok_result v) w'
        /\ main_iteration RT (call RT (S n)) (PStr line) w
           = send RT (S n)
               (PDict [("status", PStr "ok"); ("result", v); ("id", id_of d)])
               w').
Proof.
  intros Hi Hd Ht Hf. split.
  - intros Hn.
    assert (handle_command RT (S n) (of_json (JObject d)) w
            = Ret (caught_response RT (not_found name)) w) as Hh.
    { rewrite handle_command_dispatch, (dispatch_call_missing _ _ _ _ Hi Ht Hf Hn).
      now rewrite (on_exception_intact _ _ _ Hi). }
    repeat split; try exact Hh.
    exact (iteration_response _ _ _ _ _ _ Hi Hd Hh).
  - intros func v args w' Hn Htrue Ha Hcall.
    assert (handle_command RT (S n) (of_json (JObject d)) w
            = Ret (ok_result v) w') as Hh.
    { rewrite handle_command_dispatch,
        (dispatch_call_bound _ _ _ _ _ _ Hi Ht Hf Ha Hn Htrue).
      unfold bind. now rewrite Hcall. }
    split; [exact Hh|].
    exact (iteration_response _ _ _ _ _ _ Hi Hd Hh).
Qed.

(** *** Lines that are JSON but no object *)

Lemma written_read (line : string) (rest : list string) (w : world) :
  written (log_event (EvRead line) (pop_line rest w)) = written w.
Proof.
  unfold written. simpl. rewrite omap_app. simpl. now rewrite app_nil_r.
Qed.

Lemma handle_command_not_object (n : nat) (j : json) (w : world) :
  intact w -> is_object j = false ->
  exists e, handle_command RT (S n) (of_json j) w = Ret (caught_response RT e) w.
Proof.
  intros Hi Hj. rewrite handle_command_dispatch.
  destruct j; try discriminate; simpl;
    rewrite (on_exception_intact _ _ _ Hi); simpl; eexists; reflexivity.
Qed.

Lemma iteration_not_object (n : nat) (line : string) (j : json) (w : world) :
  intact w -> decodes RT line j -> is_object j = false ->
  main_iteration RT (call RT (S n)) (PStr line) w
  = Raise (mk_exn AttributeError (rt_message RT (NoAttribute (of_json j) a_get))) w.
Proof.
  intros Hi Hd Hj. unfold main_iteration, try_except.
  assert (respond RT (call RT (S n)) (PStr line) w
          = Raise (mk_exn AttributeError
                     (rt_message RT (NoAttribute (of_json j) a_get))) w) as ->.
  { destruct (handle_command_not_object n j w Hi Hj) as [e He].
    destruct Hi. unfold respond. do 2 bind_step.
    bind_with ltac:(eapply json_loads_document; eassumption).
    bind_step.
    bind_with ltac:(rewrite call_handle_command; exact He).
    apply bind_Raise. destruct j; try discriminate; reflexivity. }
  now rewrite (on_decode_error_intact _ _ _ Hi).
Qed.

(** C9.  In an intact state.  A line that decodes to a document other than
    an object: [handle_command] returns, then [cmd.get] raises
    [AttributeError], which no handler takes; [main] raises with nothing
    written for the line and the remaining lines unread.  A command whose
    handling returns a result the encoder refuses: [json.dumps] raises an
    exception that is no [JSONDecodeError], and [main] raises it in the state
    the handling left, nothing written. *)
Theorem uncaught_after_handling (n : nat) (line : string) (rest : list string)
    (w : world) :
  intact w ->
  stdin w = line :: rest -> line <> "" ->
  (forall j : json,
      decodes RT line j -> is_object j = false ->
      exists e : exn,
        main_loop RT (S (S n)) PStdin w
        = Raise e (log_event (EvRead line) (pop_line rest w))
        /\ exn_class e = AttributeError
        /\ written (log_event (EvRead line) (pop_line rest w)) = written w
        /\ stdin (log_event (EvRead line) (pop_line rest w)) = rest)
  /\ (forall (d : list (string * json)) (v : pyval) (r : encode_error)
            (w' : world),
        encoder_strict RT ->
        decodes RT line (JObject d) ->
        handle_command RT (S n) (of_json (JObject d))
          (log_event (EvRead line) (pop_line rest w)) = Ret (ok_result v) w' ->
        intact w' ->
        rt_json_encode RT v w' = inr r ->
        exists e : exn,
          main_loop RT (S (S n)) PStdin w = Raise e w'
          /\ subclass (exn_class e) JSONDecodeError = false).
Proof.
  intros Hi Hs Hl. split.
  - intros j Hd Hj. eexists. repeat split.
    + rewrite (main_loop_line _ _ _ _ Hs Hl). apply bind_Raise.
      apply (iteration_not_object n line j); auto using intact_read.
    + reflexivity.
    + apply written_read.
  - intros d v r w' Hstrict Hd Hh Hi' He.
    destruct (Hstrict [("status", PStr "ok"); ("result", v); ("id", id_of d)]
                "result" v w' r eq_refl He) as [r' Hr'].
    eexists. split.
    + rewrite (main_loop_line _ _ _ _ Hs Hl). apply bind_Raise.
      rewrite (iteration_response _ _ _ _ _ _ (intact_read _ _ _ Hi) Hd Hh).
      apply (send_refused _ _ _ _ Hi' Hr').
    + apply encode_error_not_decode.
Qed.

(** *** The namespace is the module's own *)

Lemma module_namespace_binds (base : gmap string pyval) :
  module_namespace base !! "sys" = Some (PModule Msys)
  /\ module_namespace base !! "json" = Some (PModule Mjson)
  /\ module_namespace base !! "traceback" = Some (PModule Mtraceback)
  /\ module_namespace base !! "handle_command" = Some (PFunc Fhandle_command)
  /\ module_namespace base !! "main" = Some (PFunc Fmain).
Proof. unfold module_namespace. repeat split; now simplify_map_eq. Qed.

(** With [json] bound to [None] no line gets through the loop body: the
    lookup of [json.loads] fails, and so does the lookup of
    [json.JSONDecodeError] in the [except] clause. *)
Lemma iteration_json_rebound (c : option exn -> pyval -> list pyval -> bool -> M Heap pyval)
    (line : pyval) (w : world) :
  globals w !! "json" = Some PNone ->
  main_iteration RT c line w
  = Raise (mk_exn AttributeError (rt_message RT (NoAttribute PNone a_JSONDecodeError))) w.
Proof.
  intros Hj. unfold main_iteration, try_except.
  assert (respond RT c line w
          = Raise (mk_exn AttributeError (rt_message RT (NoAttribute PNone a_loads))) w)
    as ->.
  { unfold respond. bind_step. reflexivity. }
  unfold on_decode_error. bind_step. reflexivity.
Qed.

Lemma send_json_rebound (n : nat) (v : pyval) (w : world) :
  globals w !! "json" = Some PNone ->
  send RT n v w
  = Raise (mk_exn AttributeError (rt_message RT (NoAttribute PNone a_JSONDecodeError))) w.
Proof.
  intros Hj. unfold send, try_except.
  assert (exists p, load_global RT "print" w = Ret p w) as [p Hp].
  { unfold load_global. destruct (globals w !! "print"); eexists; reflexivity. }
  assert (print_json RT (call RT n) v w
          = Raise (mk_exn AttributeError (rt_message RT (NoAttribute PNone a_dumps))) w)
    as ->.
  { unfold print_json. bind_with ltac:(exact Hp). bind_step. reflexivity. }
  unfold on_decode_error. bind_step. reflexivity.
Qed.

(** C10.  A state whose namespace is the one the module's top level builds,
    intact.  The five names the module binds resolve.  A [call] naming
    [handle_command] runs the bridge's own [handle_command] on its argument
    and answers with what it returned.  When the code of an [exec] leaves
    [json] bound to [None], the [exec] is handled and then its response
    cannot be sent: [main] raises [AttributeError]; and in every state with
    that binding every line makes the loop body raise it, where an intact
    state answers a malformed line. *)
Theorem shared_namespace (n : nat) (base : gmap string pyval) (w : world) :
  globals w = module_namespace base ->
  intact w ->
  (load_global RT "sys" w = Ret (PModule Msys) w
   /\ load_global RT "json" w = Ret (PModule Mjson) w
   /\ load_global RT "traceback" w = Ret (PModule Mtraceback) w
   /\ load_global RT "handle_command" w = Ret (PFunc Fhandle_command) w
   /\ load_global RT "main" w = Ret (PFunc Fmain) w)
  /\ (forall (inner : json) (r : pyval) (w' : world),
        handle_command RT (S n) (of_json inner) w = Ret r w' ->
        handle_command RT (S (S n))
          (of_json (JObject [("type", JString "call");
                             ("fn", JString "handle_command");
                             ("args", JArray [inner])])) w
        = Ret (ok_result r) w')
  /\ (forall (line code : string) (d : list (string * json)) (w' : world),
        decodes RT line (JObject d) ->
        dict_get d "type" = Some (JString "exec") ->
        dict_get d "code" = Some (JString code) ->
        rt_exec RT code w = Ret tt w' ->
        globals w' !! "json" = Some PNone ->
        handle_command RT (S n) (of_json (JObject d)) w = Ret ok_response w'
        /\ main_iteration RT (call RT (S n)) (PStr line) w
           = Raise (mk_exn AttributeError
                      (rt_message RT (NoAttribute PNone a_JSONDecodeError))) w'
        /\ (forall (m : nat) (later : string) (w2 : world),
              globals w2 !! "json" = Some PNone ->
              main_iteration RT (call RT m) (PStr later) w2
              = Raise (mk_exn AttributeError
                         (rt_message RT (NoAttribute PNone a_JSONDecodeError))) w2))
  /\ (forall (m : nat) (later msg text : string),
        rt_json_decode RT later = Malformed msg ->
        rt_json_encode RT invalid_json w = inl text ->
        main_iteration RT (call RT m) (PStr later) w
        = Ret PNone (log_event (EvWrite (text +:+ newline) true) w)).
Proof.
  intros Hg Hi.
  destruct (module_namespace_binds base) as (Hsys & Hjson & Htb & Hhc & Hmain).
  rewrite <- Hg in Hsys, Hjson, Htb, Hhc, Hmain.
  split; [repeat split; auto using load_global_bound|].
  split; [|split].
  - intros inner r w' Hh. rewrite handle_command_dispatch.
    erewrite (dispatch_call_bound (S n) _ "handle_command" (PFunc Fhandle_command)
                [inner] w Hi); try reflexivity; try assumption.
    simpl map. rewrite call_handle_command. unfold bind. now rewrite Hh.
  - intros line code d w' Hd Ht Hc He Hj.
    assert (handle_command RT (S n) (of_json (JObject d)) w = Ret ok_response w')
      as Hh.
    { rewrite handle_command_dispatch, (dispatch_exec _ _ _ _ Hi Ht Hc).
      unfold bind. now rewrite He. }
    split; [exact Hh|]. split.
    + rewrite (iteration_response _ _ _ _ _ _ Hi Hd Hh).
      now apply send_json_rebound.
    + intros m later w2 Hw2. now apply iteration_json_rebound.
  - intros m later msg text Hd He.
    rewrite (iteration_malformed _ _ _ _ Hi Hd). now apply print_json_written.
Qed.

(** *** Sessions *)

Lemma answered_iteration (line text : string) (w w' : world) :
  intact w ->
  answered RT line w text w' ->
  (exists n, forall m, n <= m ->
      main_iteration RT (call RT m) (PStr line) w
      = Ret PNone (log_event (EvWrite (text +:+ newline) true) w'))
  /\ intact w' /\ stdin w' = stdin w /\ io_log w' = io_log w.
Proof.
  intros Hi [msg t Hd He | fuel d fields t w1 Hd Hh Hi' Hs Hl He].
  - split; [|auto]. exists 0. intros m _.
    rewrite (iteration_malformed _ _ _ _ Hi Hd). now apply print_json_written.
  - split; [|auto]. exists fuel. intros m Hm.
    rewrite (iteration_response _ _ _ _ _ _ Hi Hd
               (handle_command_more_fuel _ _ _ _ _ _ Hm Hh)).
    now apply send_written.
Qed.

Lemma written_app (w : world) (text : string) :
  written (log_event (EvWrite text true) w) = written w ++ [text].
Proof. unfold written. simpl. now rewrite omap_app. Qed.

(** C3, as the code has it.  A run from an intact state in which every line
    is answered: with enough fuel the loop returns at the end of the input;
    the lines answered are the lines of the input, in their order; the events
    on the two streams are, for each line in turn, the read of the line and
    then the flushed write of its response, so a response is written before
    the next line is read and each line has one. *)
Theorem session_fifo (w wend : world) (pairs : list (string * string)) :
  intact w ->
  session RT w pairs wend ->
  (exists n, forall m, n <= m -> main_loop RT m PStdin w = Ret PNone wend)
  /\ map fst pairs = stdin w
  /\ stdin wend = []
  /\ io_log wend = io_log w ++ exchange pairs
  /\ written wend = written w ++ map (fun p => snd p +:+ newline) pairs.
Proof.
  intros Hi Hs. revert Hi.
  induction Hs as [w Hend | w w' wend line text rest tail Hs Hl Ha Hrun IH];
    intros Hi.
  - repeat split; auto.
    + exists 1. intros [|m] Hm; [lia|]. now apply main_loop_end.
    + simpl. now rewrite app_nil_r.
    + simpl. now rewrite app_nil_r.
  - destruct (answered_iteration _ _ _ _ (intact_read line rest w Hi) Ha)
      as ((n1 & Hit) & Hi' & Hs' & Hl').
    destruct (IH (intact_written _ _ Hi'))
      as ((n2 & Hloop) & Hlines & Hempty & Hlog & Hout).
    repeat split.
    + exists (S (Nat.max n1 n2)). intros [|m] Hm; [lia|].
      rewrite (main_loop_line _ _ _ _ Hs Hl).
      rewrite (bind_Ret _ _ _ _ _ (Hit m ltac:(lia))). apply Hloop. lia.
    + simpl. rewrite Hlines, Hs. simpl. rewrite Hs'. reflexivity.
    + exact Hempty.
    + rewrite Hlog. simpl. rewrite Hl'. simpl. now rewrite <- !app_assoc.
    + rewrite Hout, written_app.
      assert (written w' = written w) as ->.
      { unfold written at 1. rewrite Hl'. apply written_read. }
      simpl. now rewrite <- app_assoc.
Qed.


(** * Further properties of bridge.py *)

(** *** Exceptions at the command boundary *)

Lemma subclass_decode_error (c : exc_class) :
  subclass c JSONDecodeError = true -> subclass c Exception = true.
Proof.
  unfold subclass. rewrite !bool_decide_eq_true.
  induction c; simpl; rewrite ?elem_of_cons, ?elem_of_nil; try tauto;
    intros H; repeat (destruct H as [H|H]; try discriminate; try tauto).
Qed.

Lemma handle_command_raised (n : nat) (cmd : pyval) (e : exn) (w w' : world) :
  dispatch RT (call RT n) cmd w = Raise e w' ->
  intact w' ->
  handle_command RT (S n) cmd w
  = if subclass (exn_class e) Exception then Ret (caught_response RT e) w'
    else Raise e w'.
Proof.
  intros Hd Hi. rewrite handle_command_dispatch, Hd.
  apply on_exception_intact. exact Hi.
Qed.

(** The loop body when the handling of a command raises past
    [handle_command]. *)
Lemma iteration_escapes (n : nat) (line : string) (d : list (string * json))
    (e : exn) (w w' : world) :
  intact w -> intact w' ->
  decodes RT line (JObject d) ->
  handle_command RT n (of_json (JObject d)) w = Raise e w' ->
  subclass (exn_class e) Exception = false ->
  main_iteration RT (call RT n) (PStr line) w = Raise e w'.
Proof.
  intros Hi Hi' Hd Hh He. unfold main_iteration, try_except.
  rewrite (respond_object _ _ _ _ Hi Hd), (bind_Raise _ _ _ _ _ Hh).
  rewrite (on_decode_error_intact _ _ _ Hi').
  destruct (subclass (exn_class e) JSONDecodeError) eqn:E; [|reflexivity].
  apply subclass_decode_error in E. congruence.
Qed.

Lemma dispatch_carried_out (n : nat) (d : list (string * json))
    (o : outcome Heap pyval) (w : world) :
  intact w ->
  carried_out RT n d w o ->
  (forall v w', o <> Ret v w') ->
  dispatch RT (call RT n) (of_json (JObject d)) w = o.
Proof.
  intros Hi [code o' Ht Hc Ho | code o' Ht Hc Ho | name func args o' Ht Hf Ha Hg Htr Ho]
    Hno.
  - rewrite (dispatch_exec _ _ _ _ Hi Ht Hc). subst o'. unfold bind in *.
    destruct (rt_exec RT code w); try reflexivity. now destruct (Hno PNone w0).
  - rewrite (dispatch_eval _ _ _ _ Hi Ht Hc). unfold bind. rewrite Ho.
    destruct o'; try reflexivity. now destruct (Hno a w0).
  - rewrite (dispatch_call_bound _ _ _ _ _ _ Hi Ht Hf Ha Hg Htr). unfold bind.
    rewrite Ho. destruct o'; try reflexivity. now destruct (Hno a w0).
Qed.


(** X2.  An exception outside class [Exception] ([SystemExit],
    [KeyboardInterrupt]) raised the same way passes both handlers:
    [handle_command] raises it, and so does the loop, in the state the code
    left, the remaining lines unread by the bridge. *)
Theorem base_exception_escapes (n : nat) (line : string) (rest : list string)
    (d : list (string * json)) (e : exn) (w w' : world) :
  intact w -> intact w' ->
  stdin w = line :: rest -> line <> "" ->
  decodes RT line (JObject d) ->
  carried_out RT n d (log_event (EvRead line) (pop_line rest w)) (Raise e w') ->
  subclass (exn_class e) Exception = false ->
  handle_command RT (S n) (of_json (JObject d))
    (log_event (EvRead line) (pop_line rest w)) = Raise e w'
  /\ main_loop RT (S (S n)) PStdin w = Raise e w'.
Proof.
  intros Hi Hi' Hs Hl Hd Hc He.
  assert (handle_command RT (S n) (of_json (JObject d))
            (log_event (EvRead line) (pop_line rest w)) = Raise e w') as Hh.
  { rewrite (handle_command_raised n _ e _ w'); [now rewrite He| |exact Hi'].
    apply dispatch_carried_out;
      [apply intact_read; exact Hi | exact Hc | discriminate]. }
  split; [exact Hh|].
  rewrite (main_loop_line _ _ _ _ Hs Hl). apply bind_Raise.
  apply (iteration_escapes _ _ d); auto using intact_read.
Qed.

(** X3.  Code that never returns blocks the bridge: the loop never returns,
    nothing more is written and no later line is read by the bridge. *)
Theorem blocking_command (n : nat) (line : string) (rest : list string)
    (d : list (string * json)) (w w' : world) :
  intact w ->
  stdin w = line :: rest -> line <> "" ->
  decodes RT line (JObject d) ->
  carried_out RT n d (log_event (EvRead line) (pop_line rest w)) (Hang w') ->
  main_loop RT (S (S n)) PStdin w = Hang w'.
Proof.
  intros Hi Hs Hl Hd Hc.
  rewrite (main_loop_line _ _ _ _ Hs Hl).
  assert (main_iteration RT (call RT (S n)) (PStr line)
            (log_event (EvRead line) (pop_line rest w)) = Hang w') as Hit.
  { unfold main_iteration, try_except.
    rewrite (respond_object _ _ _ _ (intact_read _ _ _ Hi) Hd).
    assert (handle_command RT (S n) (of_json (JObject d))
              (log_event (EvRead line) (pop_line rest w)) = Hang w') as Hh.
    { rewrite handle_command_dispatch.
      rewrite (dispatch_carried_out n d (Hang w'));
        [reflexivity | apply intact_read; exact Hi | exact Hc | discriminate]. }
    unfold bind. now rewrite Hh. }
  unfold bind. now rewrite Hit.
Qed.

(** *** Commands that are not well formed *)

Lemma getitem_missing (d : list (string * json)) (k : string) (w : world) :
  dict_get d k = None ->
  getitem RT (of_json (JObject d)) k w
  = Raise (mk_exn KeyError (rt_message RT (MissingKey k))) w.
Proof.
  intros H. rewrite of_json_object. unfold getitem.
  rewrite dict_get_of_json, H. reflexivity.
Qed.

Lemma handle_command_fault (n : nat) (cmd : pyval) (f : fault) (w : world) :
  intact w ->
  dispatch RT (call RT n) cmd w = fail RT f w ->
  handle_command RT (S n) cmd w = Ret (fault_response RT f) w.
Proof.
  intros Hi Hd. rewrite (handle_command_raised n cmd _ w w Hd Hi).
  destruct f; reflexivity.
Qed.

Lemma dispatch_call_found (n : nat) (d : list (string * json)) (name : string)
    (func : pyval) (w : world) :
  intact w ->
  dict_get d "type" = Some (JString "call") ->
  dict_get d "fn" = Some (JString name) ->
  globals w !! name = Some func ->
  truthy RT func w = Ret true w ->
  dispatch RT (call RT n) (of_json (JObject d)) w
  = bind (getitem RT (of_json (JObject d)) "args")
      (fun packed =>
         bind (unpack RT packed)
           (fun args =>
              bind (call RT n None func args false)
                (fun result => ret (ok_result result)))) w.
Proof.
  intros [] Ht Hf Hn Htrue. unfold dispatch.
  do 7 bind_step.
  bind_with ltac:(simpl of_json; rewrite lookup_fn, Hn; reflexivity).
  bind_with ltac:(exact Htrue).
  reflexivity.
Qed.

(** X4.  A command that lacks a field the dispatch reads, in an intact
    state, is answered with the [KeyError] of that field and nothing is
    executed: [type] for every command, [code] for [exec] and [eval], [fn]
    for [call], and [args] for a [call] whose [fn] is bound to a value that
    tests true (that value is not called). *)
Theorem missing_field_answered (n : nat) (d : list (string * json)) (w : world) :
  intact w ->
  (dict_get d "type" = None ->
   handle_command RT (S n) (of_json (JObject d)) w
   = Ret (fault_response RT (MissingKey "type")) w)
  /\ (forall kind : string,
        dict_get d "type" = Some (JString kind) ->
        kind = "exec" \/ kind = "eval" ->
        dict_get d "code" = None ->
        handle_command RT (S n) (of_json (JObject d)) w
        = Ret (fault_response RT (MissingKey "code")) w)
  /\ (dict_get d "type" = Some (JString "call") ->
      dict_get d "fn" = None ->
      handle_command RT (S n) (of_json (JObject d)) w
      = Ret (fault_response RT (MissingKey "fn")) w)
  /\ (forall (name : string) (func : pyval),
        dict_get d "type" = Some (JString "call") ->
        dict_get d "fn" = Some (JString name) ->
        globals w !! name = Some func ->
        truthy RT func w = Ret true w ->
        dict_get d "args" = None ->
        handle_command RT (S n) (of_json (JObject d)) w
        = Ret (fault_response RT (MissingKey "args")) w).
Proof.
  intros Hi. split; [|split; [|split]].
  - intros Ht. apply handle_command_fault; [exact Hi|].
    unfold dispatch, type_is. apply bind_Raise. apply bind_Raise.
    now apply getitem_missing.
  - intros kind Ht [-> | ->] Hc; apply handle_command_fault; try exact Hi;
      destruct Hi; unfold dispatch; repeat bind_step;
      apply bind_Raise; now apply getitem_missing.
  - intros Ht Hf. apply handle_command_fault; [exact Hi|].
    destruct Hi. unfold dispatch. repeat bind_step.
    apply bind_Raise. now apply getitem_missing.
  - intros name func Ht Hf Hg Htrue Ha. apply handle_command_fault; [exact Hi|].
    rewrite (dispatch_call_found _ _ _ _ _ Hi Ht Hf Hg Htrue).
    apply bind_Raise. now apply getitem_missing.
Qed.

(** X5.  An [exec] or [eval] whose [code] is not a string, in an intact
    state: [exec] and [eval] reject their argument with [TypeError], the
    response is that error and the world is as it was. *)
Theorem code_must_be_text (n : nat) (d : list (string * json)) (kind : string)
    (c : json) (w : world) :
  intact w ->
  dict_get d "type" = Some (JString kind) ->
  kind = "exec" \/ kind = "eval" ->
  dict_get d "code" = Some c ->
  is_text c = false ->
  handle_command RT (S n) (of_json (JObject d)) w
  = Ret (fault_response RT (BadArguments (of_json c))) w
  /\ fault_class (BadArguments (of_json c)) = TypeError.
Proof.
  intros Hi Ht Hk Hc Hs. split; [|reflexivity].
  apply handle_command_fault; [exact Hi|].
  destruct Hi, Hk as [-> | ->]; unfold dispatch; repeat bind_step;
    destruct c; try discriminate; reflexivity.
Qed.

Lemma dispatch_call_false (n : nat) (d : list (string * json)) (fn : json)
    (func : pyval) (name : string) (w : world) :
  intact w ->
  dict_get d "type" = Some (JString "call") ->
  dict_get d "fn" = Some fn ->
  call RT n None (PMethod PGlobals a_get) [of_json fn] false w = Ret func w ->
  truthy RT func w = Ret false w ->
  scalar_text (of_json fn) = Some name ->
  dispatch RT (call RT n) (of_json (JObject d)) w = Raise (not_found name) w.
Proof.
  intros [] Ht Hf Hget Hfalse Hname. unfold dispatch.
  do 7 bind_step.
  bind_with ltac:(exact Hget).
  bind_with ltac:(exact Hfalse).
  do 2 bind_step.
  bind_with ltac:(unfold format_value; rewrite Hname; reflexivity).
  bind_step. reflexivity.
Qed.

(** X6.  The test on the looked-up value is [not func]: a [call] whose [fn]
    is bound to a value that tests false ([None], [0], an empty string, list
    or dict), in an intact state, is answered as if the name were absent,
    with the message [Function <fn> not found], and nothing is called. *)
Theorem false_value_not_found (n : nat) (d : list (string * json)) (name : string)
    (func : pyval) (w : world) :
  intact w ->
  dict_get d "type" = Some (JString "call") ->
  dict_get d "fn" = Some (JString name) ->
  globals w !! name = Some func ->
  truthy RT func w = Ret false w ->
  handle_command RT (S n) (of_json (JObject d)) w
  = Ret (error_response (PStr ("Function " +:+ name +:+ " not found"))
           (PStr (rt_format_exc RT (Some (not_found name))))) w.
Proof.
  intros Hi Ht Hf Hg Hfalse.
  rewrite (handle_command_raised n _ (not_found name) w w); [reflexivity| |exact Hi].
  apply (dispatch_call_false n d (JString name) func); auto.
  simpl of_json. rewrite lookup_fn, Hg. reflexivity.
Qed.

(** X7.  A [call] whose [fn] is not a string, in an intact state.  A list
    or an object cannot be hashed: the response is the [TypeError] of the
    lookup.  A number, a boolean or [null] is a key the namespace can hold
    once executed code has put it there, so the lookup is the
    interpreter's: when it finds nothing, or a value that tests false, the
    response is [Function <fn> not found] with [fn] as Python prints it;
    when it finds a value that tests true, that value is called on the
    elements of [args] and what it returns is the [result]. *)
Theorem fn_must_be_text (n : nat) (d : list (string * json)) (fn : json)
    (w : world) :
  intact w ->
  dict_get d "type" = Some (JString "call") ->
  dict_get d "fn" = Some fn ->
  match fn with
  | JString _ => True
  | JArray _ | JObject _ =>
      handle_command RT (S n) (of_json (JObject d)) w
      = Ret (fault_response RT (Unhashable (of_json fn))) w
  | _ =>
      forall func : pyval,
        rt_foreign RT (OpCall false) [PMethod PGlobals a_get; of_json fn] w
        = Ret func w ->
        (truthy RT func w = Ret false w ->
         exists name : string,
           scalar_text (of_json fn) = Some name
           /\ handle_command RT (S n) (of_json (JObject d)) w
              = Ret (caught_response RT (not_found name)) w)
        /\ (forall (args : list json) (v : pyval) (w' : world),
              truthy RT func w = Ret true w ->
              dict_get d "args" = Some (JArray args) ->
              call RT n None func (map of_json args) false w = Ret v w' ->
              handle_command RT (S n) (of_json (JObject d)) w
              = Ret (ok_result v) w')
  end.
Proof.
  intros Hi Ht Hf.
  assert (forall func args v w',
             call RT n None (PMethod PGlobals a_get) [of_json fn] false w
             = Ret func w ->
             truthy RT func w = Ret true w ->
             dict_get d "args" = Some (JArray args) ->
             call RT n None func (map of_json args) false w = Ret v w' ->
             handle_command RT (S n) (of_json (JObject d)) w
             = Ret (ok_result v) w') as Hfound.
  { intros func args v w' Hget Htrue Ha Hcall.
    rewrite handle_command_dispatch.
    assert (dispatch RT (call RT n) (of_json (JObject d)) w
            = bind (call RT n None func (map of_json args) false)
                (fun result => ret (ok_result result)) w) as ->.
    { destruct Hi. unfold dispatch.
      do 7 bind_step.
      bind_with ltac:(exact Hget).
      bind_with ltac:(exact Htrue).
      repeat bind_step. reflexivity. }
    unfold bind. now rewrite Hcall. }
  assert (forall name func,
             is_text fn = false ->
             call RT n None (PMethod PGlobals a_get) [of_json fn] false w
             = Ret func w ->
             truthy RT func w = Ret false w ->
             scalar_text (of_json fn) = Some name ->
             handle_command RT (S n) (of_json (JObject d)) w
             = Ret (caught_response RT (not_found name)) w) as Hscalar.
  { intros name func Hs Hget Hfalse Hname.
    rewrite (handle_command_raised n _ (not_found name) w w);
      [reflexivity| |exact Hi].
    apply (dispatch_call_false n d fn func); auto. }
  destruct fn as [|[]|z|r|s|l|m]; try exact I;
    try (intros func Hget; split;
         [ intros Hfalse; eexists; split;
           [ reflexivity
           | apply (Hscalar _ func);
             [reflexivity | exact Hget | exact Hfalse | reflexivity] ]
         | intros args v w' Htrue Ha Hcall;
           now apply (Hfound func args v w') ]).
  - apply handle_command_fault; [exact Hi|].
    destruct Hi. unfold dispatch. do 7 bind_step. reflexivity.
  - apply handle_command_fault; [exact Hi|].
    destruct Hi. unfold dispatch. do 7 bind_step. reflexivity.
Qed.

(** X8.  What [*cmd['args']] passes, for a [call] whose [fn] is bound to a
    value that tests true, in an intact state: an ASCII string gives its
    characters as separate arguments, an object gives its keys; a number, a
    boolean or [null] cannot be unpacked, the response is that [TypeError]
    and the function is not called. *)
Theorem args_unpacked (n : nat) (d : list (string * json)) (name : string)
    (func : pyval) (w : world) :
  intact w ->
  dict_get d "type" = Some (JString "call") ->
  dict_get d "fn" = Some (JString name) ->
  globals w !! name = Some func ->
  truthy RT func w = Ret true w ->
  (forall (s : string) (v : pyval) (w' : world),
      dict_get d "args" = Some (JString s) ->
      ascii_only s = true ->
      call RT n None func (chars s) false w = Ret v w' ->
      handle_command RT (S n) (of_json (JObject d)) w = Ret (ok_result v) w')
  /\ (forall (m : list (string * json)) (v : pyval) (w' : world),
        dict_get d "args" = Some (JObject m) ->
        call RT n None func (map (fun kv => PStr (fst kv)) m) false w = Ret v w' ->
        handle_command RT (S n) (of_json (JObject d)) w = Ret (ok_result v) w')
  /\ (forall a : json,
        dict_get d "args" = Some a ->
        match a with
        | JNull | JBool _ | JInt _ | JFloat _ =>
            handle_command RT (S n) (of_json (JObject d)) w
            = Ret (fault_response RT (NotIterable (of_json a))) w
        | _ => True
        end).
Proof.
  intros Hi Ht Hf Hg Htrue.
  pose proof (dispatch_call_found n _ _ _ _ Hi Ht Hf Hg Htrue) as Hd.
  split; [|split].
  - intros s v w' Ha Hs Hcall. rewrite handle_command_dispatch, Hd.
    bind_with ltac:(eapply getitem_object; exact Ha).
    bind_with ltac:(simpl; rewrite Hs; reflexivity).
    unfold bind. now rewrite Hcall.
  - intros m v w' Ha Hcall. rewrite handle_command_dispatch, Hd.
    bind_with ltac:(eapply getitem_object; exact Ha).
    bind_with ltac:(simpl; rewrite map_map; reflexivity).
    erewrite (map_ext _ (fun kv : string * json => PStr (fst kv)));
      [|now intros []].
    unfold bind. now rewrite Hcall.
  - intros a Ha. destruct a; try exact I;
      apply handle_command_fault; try exact Hi; rewrite Hd;
      (bind_with ltac:(eapply getitem_object; exact Ha)); reflexivity.
Qed.

(** *** The shape of a response *)

Lemma dict_get_set_other {A : Type} (d : list (string * A)) (k k' : string) (v : A) :
  k <> k' -> dict_get (dict_set d k v) k' = dict_get d k'.
Proof.
  intros Hk. induction d as [|[k0 v0] d IH]; simpl.
  - destruct (String.eqb_spec k k'); [contradiction | reflexivity].
  - destruct (String.eqb_spec k0 k) as [->|Hne]; simpl.
    + destruct (String.eqb_spec k k'); [contradiction | reflexivity].
    + now rewrite IH.
Qed.

(** X9.  Whatever the command and whatever the state of the namespace, a
    value [handle_command] returns is one of the source's four dicts: its
    [status] is [ok], with no [error] and no [traceback], or [error], with an
    [error] text and no [result]; it has no [id], so the [id] the loop writes
    into it goes last and leaves every other field as it was. *)
Theorem response_shape (n : nat) (cmd r v : pyval) (w w' : world) :
  handle_command RT (S n) cmd w = Ret r w' ->
  exists fields : list (string * pyval),
    r = PDict fields
    /\ ((field r "status" = Some (PStr "ok")
         /\ field r "error" = None /\ field r "traceback" = None)
        \/ (field r "status" = Some (PStr "error")
            /\ is_Some (field r "error") /\ field r "result" = None))
    /\ field r "id" = None
    /\ dict_set fields "id" v = fields ++ [("id", v)]
    /\ (forall k : string,
          k <> "id" -> field (PDict (dict_set fields "id" v)) k = field r k).
Proof.
  intros H. apply handle_command_response in H.
  destruct H as [->|[[x ->]|[->|(m & t & ->)]]]; eexists;
    (split; [reflexivity|]);
    (split; [first [left; repeat split; reflexivity
                   | right; repeat split; eauto; reflexivity]|]);
    (split; [reflexivity|]); (split; [reflexivity|]);
    intros k Hk; unfold field; cbv beta iota; apply dict_get_set_other;
    congruence.
Qed.

(** *** Exceptions of the decoder *)

(** X10.  The handler around the loop body takes [json.JSONDecodeError] and
    nothing else.  When [json.loads] raises another exception on a line (the
    decoder's [RecursionError] on deep nesting, for one), in an intact
    state, the loop raises it: nothing is written for the line and the
    remaining lines stay unread. *)
Theorem decoder_exception_escapes (n : nat) (line : string) (rest : list string)
    (e : exn) (w : world) :
  intact w ->
  stdin w = line :: rest -> line <> "" ->
  rt_json_decode RT line = DecoderFailure e ->
  subclass (exn_class e) JSONDecodeError = false ->
  main_loop RT (S n) PStdin w
  = Raise e (log_event (EvRead line) (pop_line rest w))
  /\ written (log_event (EvRead line) (pop_line rest w)) = written w
  /\ stdin (log_event (EvRead line) (pop_line rest w)) = rest.
Proof.
  intros Hi Hs Hl Hd He. split; [|split; [apply written_read | reflexivity]].
  rewrite (main_loop_line _ _ _ _ Hs Hl). apply bind_Raise.
  pose proof (intact_read line rest w Hi) as Hi'.
  unfold main_iteration, try_except.
  assert (respond RT (call RT n) (PStr line)
            (log_event (EvRead line) (pop_line rest w))
          = Raise e (log_event (EvRead line) (pop_line rest w))) as ->.
  { destruct Hi'. unfold respond. do 2 bind_step. apply bind_Raise.
    unfold call, call_value, json_loads. now rewrite Hd. }
  now rewrite (on_decode_error_intact _ _ _ Hi'), He.
Qed.

(** *** The loop inside a command *)

Lemma main_S (n : nat) (w : world) :
  globals w !! "sys" = Some (PModule Msys) ->
  main RT (S n) w = main_loop RT n PStdin w.
Proof.
  intros Hsys.
  change (main RT (S n) w) with
    (bind (load_global RT "sys") (fun sys =>
       bind (getattr RT sys a_stdin) (fun f =>
         bind (get_iter RT f) (fun it => main_loop RT n it))) w).
  repeat bind_step. reflexivity.
Qed.


(** *** Runs that answer nothing *)

(** X12.  The process as the module's top level starts it.  Imported under
    another name than [__main__] it does not enter the loop and reads
    nothing.  Run as a script on empty input it returns at once, nothing
    written.  And the loop stops, without an answer and with the rest
    unread, when the iteration hands it an empty string ([if not line:
    break]). *)
Theorem quiet_runs (n : nat) (base : gmap string pyval) (w : world) :
  globals w = module_namespace base ->
  (forall name : string,
      base !! "__name__" = Some (PStr name) -> name <> "__main__" ->
      bridge_process RT n w = Ret PNone w)
  /\ (base !! "__name__" = Some (PStr "__main__") -> stdin w = [] ->
      bridge_process RT (S (S n)) w = Ret PNone w)
  /\ (forall rest : list string,
        base !! "__name__" = Some (PStr "__main__") -> stdin w = "" :: rest ->
        bridge_process RT (S (S n)) w
        = Ret PNone (log_event (EvRead "") (pop_line rest w))).
Proof.
  intros Hg.
  destruct (module_namespace_binds base) as (Hsys & _ & _ & _ & Hmain).
  rewrite <- Hg in Hsys, Hmain.
  assert (forall v, base !! "__name__" = Some v -> globals w !! "__name__" = Some v)
    as Hname.
  { intros v Hv. rewrite Hg. unfold module_namespace. now simplify_map_eq. }
  split; [|split].
  - intros name Hb Hne. unfold bridge_process.
    bind_with ltac:(apply load_global_bound; apply Hname; exact Hb).
    bind_step. simpl eq_str.
    destruct (String.eqb_spec name "__main__"); [contradiction | reflexivity].
  - intros Hb Hs. unfold bridge_process.
    bind_with ltac:(apply load_global_bound; apply Hname; exact Hb).
    do 3 bind_step.
    change (call RT (S (S n)) None (PFunc Fmain) [] false w)
      with (main RT (S (S n)) w).
    rewrite (main_S _ _ Hsys). now apply main_loop_end.
  - intros rest Hb Hs. unfold bridge_process.
    bind_with ltac:(apply load_global_bound; apply Hname; exact Hb).
    do 3 bind_step.
    change (call RT (S (S n)) None (PFunc Fmain) [] false w)
      with (main RT (S (S n)) w).
    rewrite (main_S _ _ Hsys). cbn [main_loop].
    bind_with ltac:(unfold next_item; rewrite Hs; reflexivity).
    bind_step. reflexivity.
Qed.

(** *** The two handlers together *)



(** X15.  The bridge's two functions, named by a [call] in an intact
    state, take the arguments Python functions take: [handle_command] one,
    [main] none.  With another number of elements in [args] the response is
    the [TypeError] of the call, and neither function runs. *)
Theorem bridge_function_arity (n : nat) (d : list (string * json))
    (args : list json) (w : world) :
  intact w ->
  dict_get d "type" = Some (JString "call") ->
  dict_get d "args" = Some (JArray args) ->
  (dict_get d "fn" = Some (JString "handle_command") ->
   length args <> 1 ->
   handle_command RT (S n) (of_json (JObject d)) w
   = Ret (fault_response RT (BadArguments (PFunc Fhandle_command))) w)
  /\ (dict_get d "fn" = Some (JString "main") ->
      globals w !! "main" = Some (PFunc Fmain) ->
      length args <> 0 ->
      handle_command RT (S n) (of_json (JObject d)) w
      = Ret (fault_response RT (BadArguments (PFunc Fmain))) w).
Proof.
  intros Hi Ht Ha. split.
  - intros Hf Hlen. apply handle_command_fault; [exact Hi|].
    rewrite (dispatch_call_bound n d "handle_command" (PFunc Fhandle_command)
               args w Hi Ht Hf Ha (in_handle_command _ Hi) eq_refl).
    apply bind_Raise.
    destruct args as [|a [|b args]]; [reflexivity | now destruct Hlen | reflexivity].
  - intros Hf Hmain Hlen. apply handle_command_fault; [exact Hi|].
    rewrite (dispatch_call_bound n d "main" (PFunc Fmain)
               args w Hi Ht Hf Ha Hmain eq_refl).
    apply bind_Raise.
    destruct args as [|a args]; [now destruct Hlen | reflexivity].
Qed.

End Properties.

(** * The bridge on concrete input *)

Lemma intact_start (lines : list string) : intact (Script.start lines).
Proof. split; reflexivity. Qed.

Lemma script_encoder_strict : encoder_strict Script.runtime.
Proof.
  intros fields k v w r Hk Hv. exists NotSerializable.
  unfold Script.runtime, rt_json_encode, Script.encode in *.
  destruct (Script.text v) eqn:Ev; [discriminate|]. clear Hv.
  enough (Script.text (PDict fields) = None) as -> by reflexivity.
  simpl.
  match goal with
  | |- match ?m fields with _ => _ end = None =>
      enough (m fields = None) as -> by reflexivity
  end.
  induction fields as [|[k' x] fields IH]; [discriminate|].
  simpl in Hk. destruct (String.eqb k' k).
  - injection Hk as ->. now rewrite Ev.
  - rewrite (IH Hk). now destruct (Script.text x).
Qed.

(** The unknown-command claim on the line [{"id": 7, "type": "ping"}] at the
    start of a session. *)
Lemma unknown_command_answer_witness :
  handle_command Script.runtime 1
    (of_json (JObject [("id", JInt 7); ("type", JString "ping")]))
    (Script.start [])
  = Ret unknown_command (Script.start [])
  /\ main_iteration Script.runtime (call Script.runtime 1)
       (PStr (Script.command [("id", JInt 7); ("type", JString "ping")]))
       (Script.start [])
     = Ret PNone
         (log_event
            (EvWrite
               (Script.text_of
                  (PDict [("status", PStr "error");
                          ("error", PStr "Unknown command"); ("id", PInt 7)])
                +:+ newline) true)
            (Script.start [])).
Proof.
  destruct (unknown_command_answer Script.runtime 0
              (Script.command [("id", JInt 7); ("type", JString "ping")])
              (Script.text_of
                 (PDict [("status", PStr "error");
                         ("error", PStr "Unknown command"); ("id", PInt 7)]))
              [("id", JInt 7); ("type", JString "ping")]
              (JString "ping") (Script.start []))
    as (H1 & _ & _ & _ & _ & _ & H2);
    [ apply intact_start | vm_compute; reflexivity | reflexivity
    | discriminate | discriminate | discriminate | vm_compute; reflexivity | ].
  split; [exact H1 | exact H2].
Defined.

(** The id claim on an [eval] whose [id] is an array. *)
Lemma response_id_witness :
  main_iteration Script.runtime (call Script.runtime 1)
    (PStr (Script.command [("id", JArray [JInt 1; JString "a"]);
                           ("type", JString "eval"); ("code", JString "1+1")]))
    (Script.start [])
  = Ret PNone
      (log_event
         (EvWrite
            (Script.text_of
               (PDict [("status", PStr "ok"); ("result", PInt 2);
                       ("id", PList [PInt 1; PStr "a"])]) +:+ newline) true)
         (Script.start [])).
Proof.
  destruct (response_id Script.runtime 0
              (Script.command [("id", JArray [JInt 1; JString "a"]);
                               ("type", JString "eval"); ("code", JString "1+1")])
              [("id", JArray [JInt 1; JString "a"]);
               ("type", JString "eval"); ("code", JString "1+1")]
              (ok_result (PInt 2)) (Script.start []) (Script.start []))
    as (fields & Hr & _ & _ & _ & _ & Hw);
    [ apply intact_start | vm_compute; reflexivity | vm_compute; reflexivity | ].
  injection Hr as <-.
  apply Hw; [ apply intact_start | vm_compute; reflexivity ].
Defined.


(** The result claim on [{"id": 4, "type": "eval", "code": "1+1"}]. *)
Lemma result_field_witness :
  handle_command Script.runtime 1
    (of_json (JObject [("id", JInt 4); ("type", JString "eval");
                       ("code", JString "1+1")])) (Script.start [])
  = Ret (ok_result (PInt 2)) (Script.start [])
  /\ main_iteration Script.runtime (call Script.runtime 1)
       (PStr (Script.command [("id", JInt 4); ("type", JString "eval");
                              ("code", JString "1+1")])) (Script.start [])
     = send Script.runtime 1
         (PDict [("status", PStr "ok"); ("result", PInt 2); ("id", PInt 4)])
         (Script.start []).
Proof.
  destruct (result_field Script.runtime 0
              [("id", JInt 4); ("type", JString "eval"); ("code", JString "1+1")]
              (Script.start []) (intact_start []))
    as (_ & Heval & _ & Hscenario).
  split.
  - exact (proj1 (Heval "1+1" (PInt 2) (Script.start []) eq_refl eq_refl eq_refl)).
  - apply Hscenario; vm_compute; reflexivity.
Defined.

(** The call claim: [missing] is not in the namespace at the start; [f] is
    once [def f(x): return x+1] has run. *)
Lemma call_dispatch_witness :
  handle_command Script.runtime 1
    (of_json (JObject [("id", JInt 3); ("type", JString "call");
                       ("fn", JString "missing")])) (Script.start [])
  = Ret (caught_response Script.runtime (not_found "missing")) (Script.start [])
  /\ handle_command Script.runtime 1
       (of_json (JObject [("id", JInt 2); ("type", JString "call");
                          ("fn", JString "f"); ("args", JArray [JInt 5])]))
       (Script.bound "f" (PObj 1) (Script.start []))
     = Ret (ok_result (PInt 6)) (Script.bound "f" (PObj 1) (Script.start [])).
Proof.
  split.
  - destruct (call_dispatch Script.runtime 0
                (Script.command [("id", JInt 3); ("type", JString "call");
                                 ("fn", JString "missing")]) "missing"
                [("id", JInt 3); ("type", JString "call"); ("fn", JString "missing")]
                (Script.start []))
      as [Hmissing _];
      [ apply intact_start | vm_compute; reflexivity | reflexivity | reflexivity | ].
    exact (proj1 (Hmissing eq_refl)).
  - destruct (call_dispatch Script.runtime 0
                (Script.command [("id", JInt 2); ("type", JString "call");
                                 ("fn", JString "f"); ("args", JArray [JInt 5])]) "f"
                [("id", JInt 2); ("type", JString "call");
                 ("fn", JString "f"); ("args", JArray [JInt 5])]
                (Script.bound "f" (PObj 1) (Script.start [])))
      as [_ Hbound];
      [ split; reflexivity | vm_compute; reflexivity | reflexivity | reflexivity | ].
    exact (proj1 (Hbound (PObj 1) (PInt 6) [JInt 5] _ eq_refl eq_refl eq_refl eq_refl)).
Defined.

(** The crash claim on the line [5] and on an [eval] of [set()], each
    followed by another line. *)
Lemma uncaught_after_handling_witness :
  (exists e : exn,
      main_loop Script.runtime 2 PStdin
        (Script.start [Script.line_of (JInt 5); "next"])
      = Raise e (Script.read (Script.line_of (JInt 5))
                   (Script.start [Script.line_of (JInt 5); "next"]))
      /\ exn_class e = AttributeError)
  /\ (exists e : exn,
        main_loop Script.runtime 2 PStdin
          (Script.start [Script.command [("type", JString "eval");
                                         ("code", JString "set()")]; "next"])
        = Raise e
            (Script.read
               (Script.command [("type", JString "eval"); ("code", JString "set()")])
               (Script.start [Script.command [("type", JString "eval");
                                              ("code", JString "set()")]; "next"]))
        /\ subclass (exn_class e) JSONDecodeError = false).
Proof.
  split.
  - destruct (uncaught_after_handling Script.runtime 0 (Script.line_of (JInt 5))
                ["next"] (Script.start [Script.line_of (JInt 5); "next"]))
      as [Ha _]; [ apply intact_start | reflexivity | discriminate | ].
    destruct (Ha (JInt 5)) as (e & He & Hc & _);
      [ vm_compute; reflexivity | reflexivity | ].
    exists e. split; [exact He | exact Hc].
  - destruct (uncaught_after_handling Script.runtime 0
                (Script.command [("type", JString "eval"); ("code", JString "set()")])
                ["next"]
                (Script.start [Script.command [("type", JString "eval");
                                               ("code", JString "set()")]; "next"]))
      as [_ Hb]; [ apply intact_start | reflexivity | discriminate | ].
    apply (Hb [("type", JString "eval"); ("code", JString "set()")] (PObj 2)
             NotSerializable).
    + exact script_encoder_strict.
    + vm_compute; reflexivity.
    + vm_compute; reflexivity.
    + split; reflexivity.
    + reflexivity.
Defined.

(** The namespace claim at the start of a session: a [call] of
    [handle_command] on [{"type": "ping"}], and an [exec] of [json = None]. *)
Lemma shared_namespace_witness :
  handle_command Script.runtime 2
    (of_json (JObject [("type", JString "call"); ("fn", JString "handle_command");
                       ("args", JArray [JObject [("type", JString "ping")]])]))
    (Script.start [])
  = Ret (ok_result unknown_command) (Script.start [])
  /\ main_iteration Script.runtime (call Script.runtime 1)
       (PStr (Script.command [("type", JString "exec");
                              ("code", JString "json = None")]))
       (Script.start [])
     = Raise (mk_exn AttributeError
                (rt_message Script.runtime (NoAttribute PNone a_JSONDecodeError)))
         (Script.bound "json" PNone (Script.start [])).
Proof.
  destruct (shared_namespace Script.runtime 0 Script.script_namespace
              (Script.start []) eq_refl (intact_start []))
    as (_ & Hcall & Hexec & _).
  split.
  - apply Hcall. vm_compute; reflexivity.
  - refine (proj1 (proj2 (Hexec _ "json = None"
                            [("type", JString "exec"); ("code", JString "json = None")]
                            _ _ eq_refl eq_refl eq_refl _)));
      vm_compute; reflexivity.
Defined.


(** The FIFO claim on a session of two lines: [oops], then
    [{"id": 4, "type": "eval", "code": "1+1"}]. *)
Lemma session_fifo_witness :
  let l2 := Script.command [("id", JInt 4); ("type", JString "eval");
                            ("code", JString "1+1")] in
  let r2 := PDict [("status", PStr "ok"); ("result", PInt 2); ("id", PInt 4)] in
  let wend := Script.answer l2 r2
                (Script.answer "oops" invalid_json (Script.start ["oops"; l2])) in
  (exists n, forall m, n <= m ->
      main_loop Script.runtime m PStdin (Script.start ["oops"; l2]) = Ret PNone wend)
  /\ io_log wend
     = [EvRead "oops"; EvWrite (Script.text_of invalid_json +:+ newline) true;
        EvRead l2; EvWrite (Script.text_of r2 +:+ newline) true]
  /\ written wend
     = [Script.text_of invalid_json +:+ newline; Script.text_of r2 +:+ newline].
Proof.
  intros l2 r2 wend.
  assert (session Script.runtime (Script.start ["oops"; l2])
            [("oops", Script.text_of invalid_json); (l2, Script.text_of r2)] wend)
    as Hs.
  { apply (session_line Script.runtime _
             (Script.read "oops" (Script.start ["oops"; l2])) wend "oops"
             (Script.text_of invalid_json) [l2] [(l2, Script.text_of r2)]).
    - reflexivity.
    - discriminate.
    - apply (answered_malformed Script.runtime "oops" _ "Expecting value");
        vm_compute; reflexivity.
    - apply (session_line Script.runtime _
               (Script.read l2
                  (Script.answer "oops" invalid_json (Script.start ["oops"; l2])))
               wend l2 (Script.text_of r2) [] []).
      + reflexivity.
      + discriminate.
      + apply (answered_command Script.runtime l2 _ 1
                 [("id", JInt 4); ("type", JString "eval"); ("code", JString "1+1")]
                 [("status", PStr "ok"); ("result", PInt 2)]);
          try (vm_compute; reflexivity).
        split; reflexivity.
      + apply session_end. reflexivity. }
  destruct (session_fifo Script.runtime _ _ _ (intact_start _) Hs)
    as (Hloop & _ & _ & Hlog & Hout).
  split; [exact Hloop | split; [exact Hlog | exact Hout]].
Defined.

(** * Where the specification and the code part *)


(** C3: two lines that are well-formed commands and get no response.  The
    code of the first never returns; the code of the second raises
    [SystemExit], which [except Exception] does not take.  In both runs
    nothing is written and the line that follows stays unread. *)
Lemma command_without_response :
  let hang := Script.command [("id", JInt 1); ("type", JString "exec");
                              ("code", JString "while True: pass")] in
  let quit := Script.command [("id", JInt 1); ("type", JString "exec");
                              ("code", JString "raise SystemExit")] in
  let next := Script.command [("id", JInt 2); ("type", JString "eval");
                              ("code", JString "1+1")] in
  (bridge_process Script.runtime 4 (Script.start [hang; next])
   = Hang (Script.read hang (Script.start [hang; next]))
   /\ written (Script.read hang (Script.start [hang; next])) = []
   /\ stdin (Script.read hang (Script.start [hang; next])) = [next])
  /\ (bridge_process Script.runtime 4 (Script.start [quit; next])
      = Raise (mk_exn SystemExit "") (Script.read quit (Script.start [quit; next]))
      /\ written (Script.read quit (Script.start [quit; next])) = []
      /\ stdin (Script.read quit (Script.start [quit; next])) = [next]).
Proof. cbv zeta. repeat split; vm_compute; reflexivity. Qed.


(** C7: a name that is in the namespace and is not called with success.
    [__name__] is bound to a string: calling it raises [TypeError] and the
    response is an error.  [__doc__] is bound to [None]: the response says
    it was not found. *)
Lemma bound_name_not_invoked :
  let failure := mk_exn TypeError
                   (rt_message Script.runtime (NotCallable (PStr "__main__"))) in
  (globals (Script.start []) !! "__name__" = Some (PStr "__main__")
   /\ handle_command Script.runtime 1
        (of_json (JObject [("id", JInt 1); ("type", JString "call");
                           ("fn", JString "__name__"); ("args", JArray [])]))
        (Script.start [])
      = Ret (caught_response Script.runtime failure) (Script.start [])
   /\ field (caught_response Script.runtime failure) "status" = Some (PStr "error")
   /\ field (caught_response Script.runtime failure) "result" = None)
  /\ (globals (Script.start []) !! "__doc__" = Some PNone
      /\ handle_command Script.runtime 1
           (of_json (JObject [("id", JInt 1); ("type", JString "call");
                              ("fn", JString "__doc__"); ("args", JArray [])]))
           (Script.start [])
         = Ret (caught_response Script.runtime (not_found "__doc__"))
             (Script.start [])).
Proof. cbv zeta. repeat split; vm_compute; reflexivity. Qed.

(** C1: input on which the process ends before the end of its input.  The
    line [5] is valid JSON and no object: [main] raises [AttributeError] out
    of the loop.  An [eval] of [set()] succeeds and its result cannot be
    encoded: [main] raises [TypeError].  In both runs nothing is written, and
    the line that follows is never read. *)
Theorem loop_ends_before_end_of_input :
  let five := Script.line_of (JInt 5) in
  let set := Script.command [("id", JInt 1); ("type", JString "eval");
                             ("code", JString "set()")] in
  let next := Script.command [("id", JInt 2); ("type", JString "eval");
                              ("code", JString "1+1")] in
  (bridge_process Script.runtime 4 (Script.start [five; next])
   = Raise (mk_exn AttributeError
              (rt_message Script.runtime (NoAttribute (PInt 5) a_get)))
       (Script.read five (Script.start [five; next]))
   /\ written (Script.read five (Script.start [five; next])) = []
   /\ stdin (Script.read five (Script.start [five; next])) = [next])
  /\ (bridge_process Script.runtime 4 (Script.start [set; next])
      = Raise (mk_exn TypeError
                 (rt_encode_message Script.runtime NotSerializable
                    (PDict [("status", PStr "ok"); ("result", PObj 2);
                            ("id", PInt 1)])))
          (Script.read set (Script.start [set; next]))
      /\ written (Script.read set (Script.start [set; next])) = []
      /\ stdin (Script.read set (Script.start [set; next])) = [next]).
Proof. cbv zeta. repeat split; vm_compute; reflexivity. Qed.

(** * The further properties on concrete input *)


(** X2 on an [exec] of [raise SystemExit], followed by another line. *)
Lemma base_exception_escapes_witness :
  let quit := Script.command [("id", JInt 1); ("type", JString "exec");
                              ("code", JString "raise SystemExit")] in
  main_loop Script.runtime 2 PStdin (Script.start [quit; "next"])
  = Raise (mk_exn SystemExit "") (Script.read quit (Script.start [quit; "next"])).
Proof.
  intros quit.
  refine (proj2 (base_exception_escapes Script.runtime 0 quit ["next"]
                   [("id", JInt 1); ("type", JString "exec");
                    ("code", JString "raise SystemExit")]
                   (mk_exn SystemExit "") (Script.start [quit; "next"])
                   (Script.read quit (Script.start [quit; "next"]))
                   (intact_start _) _ eq_refl _ _ _ eq_refl)).
  - split; reflexivity.
  - discriminate.
  - vm_compute; reflexivity.
  - apply (carried_exec Script.runtime 0 _ _ "raise SystemExit"); reflexivity.
Defined.

(** X3 on an [exec] of [while True: pass], followed by another line. *)
Lemma blocking_command_witness :
  let spin := Script.command [("id", JInt 1); ("type", JString "exec");
                              ("code", JString "while True: pass")] in
  main_loop Script.runtime 2 PStdin (Script.start [spin; "next"])
  = Hang (Script.read spin (Script.start [spin; "next"])).
Proof.
  intros spin.
  refine (blocking_command Script.runtime 0 spin ["next"]
            [("id", JInt 1); ("type", JString "exec");
             ("code", JString "while True: pass")]
            (Script.start [spin; "next"])
            (Script.read spin (Script.start [spin; "next"]))
            (intact_start _) eq_refl _ _ _).
  - discriminate.
  - vm_compute; reflexivity.
  - apply (carried_exec Script.runtime 0 _ _ "while True: pass"); reflexivity.
Defined.

(** X4 on [{"id": 1}] and on a [call] of [handle_command] without [args]. *)
Lemma missing_field_answered_witness :
  handle_command Script.runtime 1 (of_json (JObject [("id", JInt 1)]))
    (Script.start [])
  = Ret (fault_response Script.runtime (MissingKey "type")) (Script.start [])
  /\ handle_command Script.runtime 1
       (of_json (JObject [("type", JString "call");
                          ("fn", JString "handle_command")])) (Script.start [])
     = Ret (fault_response Script.runtime (MissingKey "args")) (Script.start []).
Proof.
  split.
  - exact (proj1 (missing_field_answered Script.runtime 0 [("id", JInt 1)]
                    (Script.start []) (intact_start [])) eq_refl).
  - exact (proj2 (proj2 (proj2
             (missing_field_answered Script.runtime 0
                [("type", JString "call"); ("fn", JString "handle_command")]
                (Script.start []) (intact_start []))))
             "handle_command" (PFunc Fhandle_command)
             eq_refl eq_refl eq_refl eq_refl eq_refl).
Defined.

(** X5 on an [exec] whose [code] is the number 5. *)
Lemma code_must_be_text_witness :
  handle_command Script.runtime 1
    (of_json (JObject [("type", JString "exec"); ("code", JInt 5)]))
    (Script.start [])
  = Ret (fault_response Script.runtime (BadArguments (PInt 5))) (Script.start []).
Proof.
  exact (proj1 (code_must_be_text Script.runtime 0
                  [("type", JString "exec"); ("code", JInt 5)] "exec" (JInt 5)
                  (Script.start []) (intact_start []) eq_refl
                  (or_introl eq_refl) eq_refl eq_refl)).
Defined.

(** X6 on a [call] of [__doc__], which the interpreter binds to [None]. *)
Lemma false_value_not_found_witness :
  handle_command Script.runtime 1
    (of_json (JObject [("type", JString "call"); ("fn", JString "__doc__");
                       ("args", JArray [])])) (Script.start [])
  = Ret (error_response (PStr "Function __doc__ not found")
           (PStr (rt_format_exc Script.runtime (Some (not_found "__doc__")))))
      (Script.start []).
Proof.
  exact (false_value_not_found Script.runtime 0
           [("type", JString "call"); ("fn", JString "__doc__");
            ("args", JArray [])] "__doc__" PNone (Script.start [])
           (intact_start []) eq_refl eq_refl eq_refl eq_refl).
Defined.

(** X7 on a [call] whose [fn] is the number 5, in a namespace that has no
    such key, and one whose [fn] is a list. *)
Lemma fn_must_be_text_witness :
  Script.object_op (OpCall false) [PMethod PGlobals a_get; PInt 5] (Script.start [])
  = Ret PNone (Script.start [])
  /\ (exists name : string,
      scalar_text (PInt 5) = Some name
      /\ handle_command Script.runtime 1
           (of_json (JObject [("type", JString "call"); ("fn", JInt 5)]))
           (Script.start [])
         = Ret (caught_response Script.runtime (not_found name)) (Script.start []))
  /\ handle_command Script.runtime 1
       (of_json (JObject [("type", JString "call"); ("fn", JArray [JInt 5])]))
       (Script.start [])
     = Ret (fault_response Script.runtime (Unhashable (PList [PInt 5])))
         (Script.start []).
Proof.
  split; [reflexivity|]. split.
  - exact (proj1 (fn_must_be_text Script.runtime 0
                    [("type", JString "call"); ("fn", JInt 5)] (JInt 5)
                    (Script.start []) (intact_start []) eq_refl eq_refl
                    PNone eq_refl) eq_refl).
  - exact (fn_must_be_text Script.runtime 0
             [("type", JString "call"); ("fn", JArray [JInt 5])] (JArray [JInt 5])
             (Script.start []) (intact_start []) eq_refl eq_refl).
Defined.

(** X8 on a [call] of [handle_command] whose [args] is the string [x]:
    [handle_command] gets the one character and answers that a string has
    no ['type']. *)
Lemma args_unpacked_witness :
  handle_command Script.runtime 2
    (of_json (JObject [("type", JString "call"); ("fn", JString "handle_command");
                       ("args", JString "x")])) (Script.start [])
  = Ret (ok_result (fault_response Script.runtime (BadIndex (PStr "x"))))
      (Script.start []).
Proof.
  refine (proj1 (args_unpacked Script.runtime 1
                   [("type", JString "call"); ("fn", JString "handle_command");
                    ("args", JString "x")] "handle_command"
                   (PFunc Fhandle_command) (Script.start []) (intact_start [])
                   eq_refl eq_refl eq_refl eq_refl)
            "x" _ _ eq_refl eq_refl _).
  vm_compute; reflexivity.
Defined.

(** X9 on the response to [{"type": "ping"}]. *)
Lemma response_shape_witness :
  exists fields : list (string * pyval),
    unknown_command = PDict fields
    /\ ((field unknown_command "status" = Some (PStr "ok")
         /\ field unknown_command "error" = None
         /\ field unknown_command "traceback" = None)
        \/ (field unknown_command "status" = Some (PStr "error")
            /\ is_Some (field unknown_command "error")
            /\ field unknown_command "result" = None))
    /\ field unknown_command "id" = None
    /\ dict_set fields "id" (PInt 1) = fields ++ [("id", PInt 1)]
    /\ (forall k : string,
          k <> "id" ->
          field (PDict (dict_set fields "id" (PInt 1))) k
          = field unknown_command k).
Proof.
  refine (response_shape Script.runtime 0
            (of_json (JObject [("type", JString "ping")])) unknown_command
            (PInt 1) (Script.start []) (Script.start []) _).
  vm_compute; reflexivity.
Defined.

(** X10 on the line [[[[1]]]] with a decoder that allows two brackets. *)
Lemma decoder_exception_escapes_witness :
  main_loop (Script.limited 2) 1 PStdin (Script.start ["[[[1]]]"; "next"])
  = Raise Script.too_deep
      (Script.read "[[[1]]]" (Script.start ["[[[1]]]"; "next"])).
Proof.
  refine (proj1 (decoder_exception_escapes (Script.limited 2) 0 "[[[1]]]" ["next"]
                   Script.too_deep (Script.start ["[[[1]]]"; "next"])
                   (intact_start _) eq_refl _ _ eq_refl)).
  - discriminate.
  - vm_compute; reflexivity.
Defined.


(** X12 on a script started with no input, and on the module imported as
    [bridge] with a line waiting. *)
Lemma quiet_runs_witness :
  bridge_process Script.runtime 2 (Script.start []) = Ret PNone (Script.start [])
  /\ bridge_process Script.runtime 2
       (mk_world (module_namespace (<["__name__" := PStr "bridge"]> ∅))
          ["oops"] [] tt)
     = Ret PNone
         (mk_world (module_namespace (<["__name__" := PStr "bridge"]> ∅))
            ["oops"] [] tt).
Proof.
  split.
  - exact (proj1 (proj2 (quiet_runs Script.runtime 0 Script.script_namespace
                           (Script.start []) eq_refl)) eq_refl eq_refl).
  - refine (proj1 (quiet_runs Script.runtime 2
                     (<["__name__" := PStr "bridge"]> ∅)
                     (mk_world (module_namespace (<["__name__" := PStr "bridge"]> ∅))
                        ["oops"] [] tt) eq_refl) "bridge" eq_refl _).
    discriminate.
Defined.



(** X15 on a [call] of [handle_command] with no argument. *)
Lemma bridge_function_arity_witness :
  handle_command Script.runtime 1
    (of_json (JObject [("type", JString "call"); ("fn", JString "handle_command");
                       ("args", JArray [])])) (Script.start [])
  = Ret (fault_response Script.runtime (BadArguments (PFunc Fhandle_command)))
      (Script.start []).
Proof.
  refine (proj1 (bridge_function_arity Script.runtime 0
                   [("type", JString "call"); ("fn", JString "handle_command");
                    ("args", JArray [])] [] (Script.start []) (intact_start [])
                   eq_refl eq_refl) eq_refl _).
  discriminate.
Defined.
